(** * monty: the code-extraction pipeline of [monty/exts/info/codeblock_buttons.py]

    A shallow embedding of [CodeButtons.get_code], [CodeButtons.check_paste_link]
    and [CodeButtons.parse_code], together with the library calls they make
    ([re.search] on [PASTE_REGEX], [urllib.parse.urlparse], [urllib.parse.parse_qs])
    and the collaborators they reach through [self.bot] (the Snekbox cog, the
    code-block cog, the HTTP session).

    Conventions.
    - A Python [str] is a [string]; one [ascii] stands for one character (a code
      point below 256), so [len] is [String.length].
    - A coroutine that either returns or raises is a value of [result]: the
      pipeline awaits its calls one after the other and keeps no state. *)

From Stdlib Require Import String Ascii List ZArith Bool Lia.
Import ListNotations.

Local Open Scope string_scope.
Local Open Scope Z_scope.

Set Implicit Arguments.

(** ** Python values *)

Module Py.

(** The exceptions that can leave [check_paste_link]. *)
Inductive exception : Type :=
| KeyError (key : string)       (* a dict subscript that misses *)
| TimeoutError                  (* asyncio.TimeoutError, from the client timeout *)
| ClientError (msg : string)    (* aiohttp.ClientError and its subclasses *)
| UnicodeDecodeError            (* resp.text() on a body that does not decode *)
| IndexError.                   (* a list subscript out of range *)

(** The outcome of a call: a returned value or a raised exception. *)
Inductive result (A : Type) : Type :=
| Ok (a : A)
| Raise (e : exception).

Arguments Ok {A} a.
Arguments Raise {A} e.

Definition bind {A B : Type} (m : result A) (k : A -> result B) : result B :=
  match m with
  | Ok a => k a
  | Raise e => Raise e
  end.

(** [len(s)] *)
Definition len (s : string) : Z := Z.of_nat (String.length s).

(** Truth value of an [Optional[str]]: [None] and [""] are false. *)
Definition truthy (o : option string) : bool :=
  match o with
  | Some (String _ _) => true
  | _ => false
  end.

(** [s.split(sep, 1)] for a one-character [sep]: the text before and after
    the first [sep], or [None] when [sep] does not occur. *)
Fixpoint split_once (sep : ascii) (s : string) : option (string * string) :=
  match s with
  | EmptyString => None
  | String c t =>
      if Ascii.eqb c sep then Some (EmptyString, t)
      else match split_once sep t with
           | Some (a, b) => Some (String c a, b)
           | None => None
           end
  end.

(** [s.split(sep)] for a one-character [sep]; never the empty list. *)
Fixpoint split (sep : ascii) (s : string) : list string :=
  match s with
  | EmptyString => [EmptyString]
  | String c t =>
      if Ascii.eqb c sep then EmptyString :: split sep t
      else match split sep t with
           | h :: r => String c h :: r
           | [] => [String c EmptyString]
           end
  end.

(** [s.replace(a, b)] for one-character [a] and [b]. *)
Fixpoint replace (a b : ascii) (s : string) : string :=
  match s with
  | EmptyString => EmptyString
  | String c t => String (if Ascii.eqb c a then b else c) (replace a b t)
  end.

(** [s.startswith(p)], returning what follows the prefix. *)
Fixpoint strip_prefix (p s : string) : option string :=
  match p with
  | EmptyString => Some s
  | String a p' =>
      match s with
      | String b s' => if Ascii.eqb a b then strip_prefix p' s' else None
      | EmptyString => None
      end
  end.

(** [s[:n]] *)
Fixpoint take (n : nat) (s : string) : string :=
  match n, s with
  | S n', String c t => String c (take n' t)
  | _, _ => EmptyString
  end.

(** [all(p(c) for c in s)] *)
Fixpoint all_chars (p : ascii -> bool) (s : string) : bool :=
  match s with
  | EmptyString => true
  | String c t => p c && all_chars p t
  end.

(** Unicode white space among the characters below 256, as [str.isspace]
    and the [\s] class of [re] have it: TAB..CR, FS..US, SPACE, NEL, NBSP. *)
Definition isspace (c : ascii) : bool :=
  let n := nat_of_ascii c in
  ((9 <=? n) && (n <=? 13) || (28 <=? n) && (n <=? 32)
   || (n =? 133) || (n =? 160))%nat.

End Py.

Export Py.

Notation "x <- m ;; k" := (bind m (fun x => k))
  (at level 61, m at next level, right associativity).

(** ** [re]: a backtracking matcher for the constructs [PASTE_REGEX] uses *)

Module Re.

(** Patterns: a literal, concatenation, alternation [a|b], the greedy option
    [a?] and the greedy repetition [C+] of a character class. *)
Inductive regex : Type :=
| Lit (s : string)
| Seq (a b : regex)
| Alt (a b : regex)
| Opt (a : regex)
| Plus (cls : ascii -> bool).

Section Exec.
Variable A : Type.

(** [C*] against [s]: take as many characters as possible, then give
    characters back one at a time until the continuation succeeds. *)
Fixpoint star (cls : ascii -> bool) (s : string) (k : string -> option A)
  : option A :=
  match s with
  | String c t =>
      if cls c then
        match star cls t k with
        | Some x => Some x
        | None => k s
        end
      else k s
  | EmptyString => k s
  end.

(** [exec r s k]: match [r] at the start of [s] and hand the rest of the
    text to [k]; alternatives are tried in the order [re] tries them. *)
Fixpoint exec (r : regex) (s : string) (k : string -> option A) : option A :=
  match r with
  | Lit l =>
      match strip_prefix l s with
      | Some t => k t
      | None => None
      end
  | Seq a b => exec a s (fun t => exec b t k)
  | Alt a b =>
      match exec a s k with
      | Some x => Some x
      | None => exec b s k
      end
  | Opt a =>
      match exec a s k with
      | Some x => Some x
      | None => k s
      end
  | Plus cls =>
      match s with
      | String c t => if cls c then star cls t k else None
      | EmptyString => None
      end
  end.
End Exec.

(** [r.match(s).group()]: the text matched at the start of [s]. *)
Definition match_ (r : regex) (s : string) : option string :=
  match exec r s (fun rest => Some rest) with
  | Some rest => Some (take (String.length s - String.length rest) s)
  | None => None
  end.

(** [r.search(s).group()]: the match at the leftmost position that has one. *)
Fixpoint search (r : regex) (s : string) : option string :=
  match match_ r s with
  | Some m => Some m
  | None =>
      match s with
      | String _ t => search r t
      | EmptyString => None
      end
  end.

(** What a pattern denotes: the texts it matches in full. *)
Fixpoint matches (r : regex) (m : string) : Prop :=
  match r with
  | Lit l => m = l
  | Seq a b => exists m1 m2, m = m1 ++ m2 /\ matches a m1 /\ matches b m2
  | Alt a b => matches a m \/ matches b m
  | Opt a => m = EmptyString \/ matches a m
  | Plus cls => m <> EmptyString /\ all_chars cls m = true
  end.

(** [s] has a substring that [r] matches. *)
Definition contains (r : regex) (s : string) : Prop :=
  exists before m after, s = before ++ m ++ after /\ matches r m.

End Re.

(** ** [urllib.parse] *)

Module Urllib.

(** [urlparse(url, scheme="https").query] for a URL that [PASTE_REGEX]
    matched: the fragment is cut at the first [#], and the query is what
    follows the first [?] of the remainder. The scheme and host that precede
    the path hold neither character ([matched_link_query] below), so they
    are not split off first. *)
Definition urlparse_query (url : string) : string :=
  let url := match split_once "#" url with
             | Some (before, _) => before
             | None => url
             end in
  match split_once "?" url with
  | Some (_, query) => query
  | None => EmptyString
  end.

Section ParseQs.
(** [urllib.parse.unquote], the percent-decoding of names and values. It
    decodes escapes as UTF-8, so its results are not bounded by the
    characters it reads; the pipeline is stated for any such function. *)
Variable unquote : string -> string.

(** [parse_qsl(qs)] with its defaults: fields are separated by [&]; a
    field without [=] or with an empty value is dropped. *)
Definition parse_qsl (qs : string) : list (string * string) :=
  flat_map
    (fun name_value =>
       match split_once "=" name_value with
       | Some (name, String c v) =>
           [(unquote (replace "+" " " name),
             unquote (replace "+" " " (String c v)))]
       | _ => []
       end)
    (split "&" qs).

(** A [dict] from names to the list of their values, in insertion order. *)
Definition dict : Type := list (string * list string).

Fixpoint dict_append (name value : string) (d : dict) : dict :=
  match d with
  | [] => [(name, [value])]
  | (n, vs) :: rest =>
      if String.eqb n name then (n, (vs ++ [value])%list) :: rest
      else (n, vs) :: dict_append name value rest
  end.

(** [parse_qs(qs)] *)
Definition parse_qs (qs : string) : dict :=
  fold_left (fun d nv => dict_append (fst nv) (snd nv) d) (parse_qsl qs) [].
End ParseQs.

(** [d[key]] *)
Fixpoint getitem (key : string) (d : dict) : result (list string) :=
  match d with
  | [] => Raise (KeyError key)
  | (n, vs) :: rest => if String.eqb n key then Ok vs else getitem key rest
  end.

(** [l[0]] *)
Definition first (l : list string) : result string :=
  match l with
  | x :: _ => Ok x
  | [] => Raise IndexError
  end.

End Urllib.

(** ** Collaborators reached through [self.bot] *)

(** The Snekbox cog ([monty.exts.eval.Snekbox]): [prepare_input] takes the
    message text and [require_fenced] and returns the code it finds, if any. *)
Record Snekbox : Type := {
  prepare_input : string -> bool -> option string
}.

(** The code-block cog ([monty.exts.info.codeblock._cog.CodeBlockCog]). *)
Record CodeBlockCog : Type := {
  is_python_code : string -> bool
}.

(** What [async with session.get(url, timeout=...) as resp] hands over: the
    status line is there, the body is read by [await resp.text()]. *)
Record Response : Type := {
  status : Z;
  text : result string
}.

(** [monty.bot.Bot] as the cog uses it. The two cog lookups are
    [bot.get_cog("Snekbox")] and [bot.get_cog("Code Block")], typed as the
    annotations of [get_snekbox] and [get_codeblock_cog] type them. *)
Record Bot : Type := {
  get_cog_Snekbox : option Snekbox;
  get_cog_Code_Block : option CodeBlockCog;
  http_session_get : string -> result Response
}.

(** Names the module imports from outside these sources. *)
Record Imports : Type := {
  (** [urllib.parse.unquote] *)
  unquote : string -> string;
  (** [fun key => Paste.raw_paste_endpoint.format(key=key)], with [Paste] of
      [monty.constants] *)
  raw_paste_endpoint_format : string -> string
}.

(** ** [monty/exts/info/codeblock_buttons.py] *)

Module CodeButtons.

(** [re.compile(r"(https?:\/\/)?paste\.(disnake|nextcord)\.dev\/\S+")] *)
Definition PASTE_REGEX : Re.regex :=
  Re.Seq (Re.Opt (Re.Seq (Re.Lit "http")
                    (Re.Seq (Re.Opt (Re.Lit "s")) (Re.Lit "://"))))
    (Re.Seq (Re.Lit "paste.")
       (Re.Seq (Re.Alt (Re.Lit "disnake") (Re.Lit "nextcord"))
          (Re.Seq (Re.Lit ".dev/")
             (Re.Plus (fun c => negb (isspace c)))))).

Definition MAX_LEN : Z := 20000.

(** [self]: the cog holds the bot (and [black_endpoint], which the pipeline
    does not read). *)
Record t : Type := {
  bot : Bot;
  black_endpoint : string
}.

(** What [parse_code] returns: [(success, code, is_paste)]. *)
Definition outcome : Type := (bool * option string * option bool)%type.

Definition get_snekbox (self : t) : option Snekbox :=
  get_cog_Snekbox (bot self).

Definition get_codeblock_cog (self : t) : option CodeBlockCog :=
  get_cog_Code_Block (bot self).

Definition get_code (self : t) (content : string)
    (require_fenced check_is_python : bool) : option string :=
  match get_snekbox self with
  | None => None
  | Some snekbox =>
      match prepare_input snekbox content require_fenced with
      | Some (String _ _ as code) =>
          if check_is_python then
            match get_codeblock_cog self with
            | Some codeblock =>
                if negb (is_python_code codeblock code) then None
                else Some code
            | None => Some code
            end
          else Some code
      | _ => None
      end
  end.

Section WithImports.
Variable env : Imports.

(** Lines 59 to 61 of [check_paste_link]: the [id] parameter of the query
    of the matched URL, [query_strings["id"][0]]. *)
Definition paste_id (matched : string) : result string :=
  let query := Urllib.urlparse_query matched in
  let query_strings := Urllib.parse_qs (unquote env) query in
  ids <- Urllib.getitem "id" query_strings ;;
  Urllib.first ids.

Definition check_paste_link (self : t) (content : string)
  : result (option string) :=
  match Re.search PASTE_REGEX content with
  | None => Ok None
  | Some matched =>
      id <- paste_id matched ;;
      let url := raw_paste_endpoint_format env id in
      resp <- http_session_get (bot self) url ;;
      if negb (status resp =? 200) then Ok None
      else
        body <- text resp ;;
        Ok (Some body)
  end.

Definition parse_code (self : t) (content : string)
    (require_fenced check_is_python : bool) : result outcome :=
  code <- check_paste_link self content ;;
  let '(is_paste, code) :=
    if truthy code then (true, code)
    else (false, get_code self content require_fenced check_is_python) in
  match code with
  | Some (String _ _ as c) =>
      if len c >? MAX_LEN then Ok (false, None, None)
      else Ok (true, Some c, Some is_paste)
  | _ => Ok (false, None, None)
  end.
End WithImports.

End CodeButtons.

(** ** The Snekbox cog's extractor, from the specification *)

Module SnekboxSpec.

Definition newline : ascii := "010"%char.

(** The fence marker: three backticks. *)
Definition fence : string := "```".

(** The first occurrence of [sep] in [s]: the text before it and after it. *)
Fixpoint partition (sep s : string) : option (string * string) :=
  match strip_prefix sep s with
  | Some after => Some (EmptyString, after)
  | None =>
      match s with
      | String c t =>
          match partition sep t with
          | Some (before, after) => Some (String c before, after)
          | None => None
          end
      | EmptyString => None
      end
  end.

(** Modelled from the spec: the fenced region that [Snekbox.prepare_input]
    (absent from these sources) looks for, section 4.2: the text between the
    first opening fence and the fence that closes it; [None] when the message
    has no fenced region. *)
Definition fenced_region (content : string) : option string :=
  match partition fence content with
  | None => None
  | Some (_, opened) =>
      match partition fence opened with
      | None => None
      | Some (inner, _) => Some inner
      end
  end.

Definition is_tag_char (c : ascii) : bool :=
  let n := nat_of_ascii c in
  ((48 <=? n) && (n <=? 57) || (65 <=? n) && (n <=? 90)
   || (97 <=? n) && (n <=? 122) || (n =? 43) || (n =? 45) || (n =? 95))%nat.

(** Modelled from the spec: the optional language tag of section 4.2, absent
    from these sources with [Snekbox.prepare_input]. It is what stands on the
    line of the opening fence, when that is a single word; it is not part of
    the code. *)
Definition drop_language_tag (inner : string) : string :=
  match split_once newline inner with
  | Some (tag, body) => if all_chars is_tag_char tag then body else inner
  | None => inner
  end.

Definition is_blank (line : string) : bool := all_chars isspace line.

Fixpoint drop_blank (lines : list string) : list string :=
  match lines with
  | l :: rest => if is_blank l then drop_blank rest else lines
  | [] => []
  end.

Fixpoint join_lines (lines : list string) : string :=
  match lines with
  | [] => EmptyString
  | [l] => l
  | l :: rest => l ++ String newline (join_lines rest)
  end.

(** Modelled from the spec: the trimming of section 4.2, absent from these
    sources with [Snekbox.prepare_input]: the blank lines at both ends go. *)
Definition trim_blank_lines (s : string) : string :=
  join_lines (rev (drop_blank (rev (drop_blank (split newline s))))).

(** Modelled from the spec: [Snekbox.prepare_input] of [monty/exts/eval],
    which these sources call but do not contain. Section 4.2 (Inline
    Extractor): a fenced region, when there is one, gives its inner content
    without the language tag and without leading and trailing blank lines;
    without a fenced region the whole message is the code when
    [require_fenced] is false and it is not blank, and there is no code when
    [require_fenced] is true. *)
Definition prepare_input (content : string) (require_fenced : bool)
  : option string :=
  match fenced_region content with
  | Some inner => Some (trim_blank_lines (drop_language_tag inner))
  | None =>
      if require_fenced then None
      else if is_blank content then None
      else Some content
  end.

Definition cog : Snekbox := Build_Snekbox prepare_input.

End SnekboxSpec.

(** ** The specification's eligibility filter *)

Module Spec.

(** Section 4.3, [is_eligible(code, max_length)]: false if [code] is nothing
    or empty, false if [len(code) > max_length], true otherwise. *)
Definition is_eligible (code : option string) (max_length : Z) : bool :=
  match code with
  | None => false
  | Some EmptyString => false
  | Some c => negb (len c >? max_length)
  end.

(** Section 4.4, steps 4 and 5, in the shape of [parse_code]'s tuple: the
    candidate is accepted with its origin when it is eligible, and the
    outcome is a rejection otherwise. *)
Definition decide (candidate : option string) (is_paste : bool)
  : CodeButtons.outcome :=
  if is_eligible candidate CodeButtons.MAX_LEN
  then (true, candidate, Some is_paste)
  else (false, None, None).

(** The time of a first and of a second invocation see collaborators that
    behave as the same functions. *)
Definition same_snekbox (a b : option Snekbox) : Prop :=
  match a, b with
  | None, None => True
  | Some x, Some y =>
      forall content require_fenced,
        prepare_input x content require_fenced
        = prepare_input y content require_fenced
  | _, _ => False
  end.

Definition same_codeblock (a b : option CodeBlockCog) : Prop :=
  match a, b with
  | None, None => True
  | Some x, Some y => forall code, is_python_code x code = is_python_code y code
  | _, _ => False
  end.

Definition stable (env1 env2 : Imports) (self1 self2 : CodeButtons.t) : Prop :=
  (forall s, unquote env1 s = unquote env2 s)
  /\ (forall key,
        raw_paste_endpoint_format env1 key = raw_paste_endpoint_format env2 key)
  /\ (forall url,
        http_session_get (CodeButtons.bot self1) url
        = http_session_get (CodeButtons.bot self2) url)
  /\ same_snekbox (CodeButtons.get_snekbox self1) (CodeButtons.get_snekbox self2)
  /\ same_codeblock (CodeButtons.get_codeblock_cog self1)
       (CodeButtons.get_codeblock_cog self2).

(** The request that [check_paste_link] makes for [content] is answered: the
    matched URL, if any, carries an [id], the session returns a response for
    it, and the body of a 200 response can be read. *)
Definition fetch_answered (env : Imports) (self : CodeButtons.t)
    (content : string) : Prop :=
  match Re.search CodeButtons.PASTE_REGEX content with
  | None => True
  | Some matched =>
      exists id resp,
        CodeButtons.paste_id env matched = Ok id
        /\ http_session_get (CodeButtons.bot self)
             (raw_paste_endpoint_format env id) = Ok resp
        /\ (status resp = 200 -> exists body, text resp = Ok body)
  end.

End Spec.

(** ** Concrete collaborators, for the examples *)

Module Examples.

(** [unquote] returns a text without [%] as it is; the endpoint has the shape
    of a raw-paste URL. *)
Definition env : Imports :=
  {| unquote := fun s => s;
     raw_paste_endpoint_format := fun key => "https://paste.disnake.dev/raw/" ++ key |}.

Definition response (code : Z) (body : string) : Response :=
  {| status := code; text := Ok body |}.

(** A session that answers every request with the same status and body. *)
Definition session_status (code : Z) (body : string)
  : string -> result Response :=
  fun _ => Ok (response code body).

Definition session_timeout : string -> result Response :=
  fun _ => Raise TimeoutError.

(** A cog on a bot with both cogs loaded. *)
Definition cog_with (session : string -> result Response)
    (is_python : string -> bool) : CodeButtons.t :=
  {| CodeButtons.bot :=
       {| get_cog_Snekbox := Some SnekboxSpec.cog;
          get_cog_Code_Block := Some {| is_python_code := is_python |};
          http_session_get := session |};
     CodeButtons.black_endpoint := "https://black.example/api" |}.

(** A cog on a bot that loaded neither the Snekbox nor the code-block cog. *)
Definition cog_bare (session : string -> result Response) : CodeButtons.t :=
  {| CodeButtons.bot :=
       {| get_cog_Snekbox := None;
          get_cog_Code_Block := None;
          http_session_get := session |};
     CodeButtons.black_endpoint := "https://black.example/api" |}.

(** A cog on a bot with the Snekbox cog but without the code-block cog. *)
Definition cog_no_codeblock (session : string -> result Response)
  : CodeButtons.t :=
  {| CodeButtons.bot :=
       {| get_cog_Snekbox := Some SnekboxSpec.cog;
          get_cog_Code_Block := None;
          http_session_get := session |};
     CodeButtons.black_endpoint := "https://black.example/api" |}.

(** A second cog whose collaborators are written differently and compute
    the same answers as those of [cog_with session (fun _ => true)]. *)
Definition cog_replica (session : string -> result Response) : CodeButtons.t :=
  {| CodeButtons.bot :=
       {| get_cog_Snekbox :=
            Some {| prepare_input := fun content require_fenced =>
                      if require_fenced
                      then SnekboxSpec.prepare_input content true
                      else SnekboxSpec.prepare_input content false |};
          get_cog_Code_Block :=
            Some {| is_python_code := fun code => Nat.leb 0 (String.length code) |};
          http_session_get := fun url => session (url ++ "") |};
     CodeButtons.black_endpoint := "https://black.example/api" |}.

Definition paste_message : string := "https://paste.disnake.dev/?id=abcd".

(** A paste link without an [id] parameter. *)
Definition keyless_message : string := "see paste.disnake.dev/abcd".

(** A fenced block tagged [py] that holds [print(1)]. *)
Definition fenced_message : string :=
  "```py" ++ String SnekboxSpec.newline
    ("print(1)" ++ String SnekboxSpec.newline "```").

Fixpoint repeat_char (c : ascii) (n : nat) : string :=
  match n with
  | O => EmptyString
  | S n' => String c (repeat_char c n')
  end.

(** A body of exactly [MAX_LEN] characters, and one character more. *)
Definition body_max : string :=
  String "x" (repeat_char "x" (Z.to_nat (CodeButtons.MAX_LEN - 1))).
Definition body_over : string := String "x" body_max.

(** 25,000 characters of plain text. *)
Definition long_message : string := repeat_char "x" (Z.to_nat 25000).

End Examples.

(** ** More of [str] *)

Module PyStr.

(** [s.lstrip()] *)
Fixpoint lstrip (s : string) : string :=
  match s with
  | String c t => if isspace c then lstrip t else s
  | EmptyString => EmptyString
  end.

(** [s.rstrip()] *)
Fixpoint rstrip (s : string) : string :=
  match s with
  | String c t =>
      match rstrip t with
      | EmptyString => if isspace c then EmptyString else String c EmptyString
      | kept => String c kept
      end
  | EmptyString => EmptyString
  end.

(** [s.strip()]: white space goes at both ends. *)
Definition strip (s : string) : string := rstrip (lstrip s).

(** [s.startswith(prefix)] *)
Definition startswith (prefix s : string) : bool :=
  match strip_prefix prefix s with
  | Some _ => true
  | None => false
  end.

(** [d[key]] on a [dict] with text values, such as a decoded JSON object. *)
Fixpoint getitem (key : string) (d : list (string * string)) : result string :=
  match d with
  | [] => Raise (KeyError key)
  | (k, v) :: rest => if String.eqb k key then Ok v else getitem key rest
  end.

End PyStr.

(** ** The commands of [codeblock_buttons.py] *)

Module Commands.

Import CodeButtons.

(** What can leave a command: an exception of the pipeline or of a service,
    an attribute looked up on [None], or the [commands.UserInputError] that
    [prefix_black] raises itself. *)
Inductive raised : Type :=
| Exception (e : Py.exception)
| AttributeError (attr : string)
| UserInputError (msg : string).

(** [disnake.ui.Button(style=ButtonStyle.url, label=..., url=...)] *)
Inductive button : Type :=
| Button (label : string) (url : option string).

(** What a command does to the outside, in the order it does it. *)
Inductive effect : Type :=
(* inter.send(content, ephemeral=..., components=...) *)
| InterSend (content : string) (ephemeral : bool) (components : option button)
(* ctx.send(content, components=...) *)
| CtxSend (content : string) (components : option button)
(* send_to_paste_service(contents, extension=...) *)
| PasteService (contents : option string) (extension : string)
(* bot.http_session.post(url, json={source, options: {line_length}}) *)
| Post (url : string) (source : option string) (line_length : Z)
(* snekbox.upload_output(output, extension) *)
| UploadOutput (output extension : string)
(* inter.response.defer() *)
| Defer
(* snekbox.send_eval(inter.target, code, return_result=True) *)
| SendEval (code : option string)
(* inter.edit_original_message(content=..., view=...), the view by the
   buttons added to it *)
| EditOriginalMessage (content : string) (view : list button)
(* wait_for_deletion(inter, view=...) *)
| WaitForDeletion (view : list button).

(** A run of a command: the effects so far, and a value or what was raised. *)
Definition run (A : Type) : Type := (list effect * (A + raised))%type.

Definition ret {A : Type} (a : A) : run A := ([], inl a).

Definition throw {A : Type} (r : raised) : run A := ([], inr r).

Definition emit (e : effect) : run unit := ([e], inl tt).

Definition then_ {A B : Type} (m : run A) (k : A -> run B) : run B :=
  match m with
  | (done, inl a) => let (more, r) := k a in ((done ++ more)%list, r)
  | (done, inr e) => (done, inr e)
  end.

(** [await] of a coroutine that returns or raises. *)
Definition await {A : Type} (m : result A) : run A :=
  match m with
  | Ok a => ret a
  | Raise e => throw (Exception e)
  end.

(** A call to a service: the call is an effect, its answer is awaited. *)
Definition call {A : Type} (e : effect) (answer : result A) : run A :=
  then_ (emit e) (fun _ => await answer).

(** The response of the formatter: its status, and the decoded body read by
    [await resp.json()]. *)
Record PostResponse : Type := {
  post_status : Z;
  post_json : result (list (string * string))
}.

(** The services the commands call besides the pipeline. [upload_output] and
    [send_eval] are methods of a Snekbox cog, so they take the cog. *)
Record Services : Type := {
  (** [monty.utils.services.send_to_paste_service(contents, extension=...)] *)
  send_to_paste_service : option string -> string -> result (option string);
  (** [bot.http_session.post(url, json=..., timeout=AIOHTTP_TIMEOUT)], by the
      URL and the two values of the JSON body *)
  http_session_post : string -> option string -> Z -> result PostResponse;
  (** [Snekbox.upload_output(output, extension)] *)
  upload_output : Snekbox -> string -> string -> result (option string);
  (** [Snekbox.send_eval(message, code, return_result=True)], by the content
      of the message *)
  send_eval : Snekbox -> string -> option string -> result (string * option string)
}.

(** U+1F44C, the last character of the "no changes" reply, as its UTF-8
    bytes; the reply is only handed on. *)
Definition ok_hand : string :=
  String "240" (String "159" (String "145" (String "140" EmptyString))).

Definition no_code_reply : string :=
  "This message does not have any code to extract.".

(** Truth value of an [Optional[bool]]. *)
Definition truthy_flag (o : option bool) : bool :=
  match o with
  | Some true => true
  | _ => false
  end.

Section WithServices.
Variable env : Imports.
Variable svc : Services.

(** [upload_to_workbin(inter)], by the content of [inter.target]. *)
Definition upload_to_workbin (self : t) (content : string) : run unit :=
  then_ (await (parse_code env self content false false)) (fun r =>
  let '(success, code, is_paste) := r in
  if negb success then emit (InterSend no_code_reply true None)
  else if truthy_flag is_paste then
    emit (InterSend "This is already a paste link." true None)
  else
    then_ (call (PasteService code "python")
             (send_to_paste_service svc code "python")) (fun url =>
    let button := Button "Click to open in workbin" url in
    emit (InterSend
            "I've uploaded this message to paste, you can view it here:"
            false (Some button)))).

(** [_format_black(message)], by the content of [message]; it returns
    [(success, string, link)]. *)
Definition _format_black (self : t) (content : string)
  : run (bool * string * option string) :=
  then_ (await (parse_code env self content false false)) (fun r =>
  let '(success, code, _) := r in
  if negb success then ret (false, no_code_reply, None)
  else
    then_ (call (Post (black_endpoint self) code 110)
             (http_session_post svc (black_endpoint self) code 110))
      (fun resp =>
    if negb (post_status resp =? 200) then
      ret (false,
           "Something went wrong internally when formatting the code. Please report this.",
           None)
    else
      then_ (await (post_json resp)) (fun json =>
      then_ (await (PyStr.getitem "formatted_code" json)) (fun formatted_code =>
      let formatted := PyStr.strip formatted_code in
      then_ (await (PyStr.getitem "source_code" json)) (fun source_code =>
      if String.eqb (PyStr.strip source_code) formatted then
        ret (true,
             "Formatted with black but no changes were made! " ++ ok_hand,
             None)
      else
        match get_snekbox self with
        | None => throw (AttributeError "upload_output")
        | Some snekbox =>
            then_ (call (UploadOutput formatted "python")
                     (upload_output svc snekbox formatted "python"))
              (fun paste =>
            if negb (truthy paste) then
              ret (false, "Sorry, something went wrong!", None)
            else
              let msg :=
                if PyStr.startswith "Cannot parse:" formatted then
                  "Attempted to format with black, but an error occured. Click to view."
                else
                  "Formatted with black. Click the button below to view on the pastebin."
              in
              ret (true, msg, paste))
        end))))).

(** Lines 163 to 170 and 192 to 199: the button, when there is a link. *)
Definition link_button (url : option string) : option button :=
  if truthy url then Some (Button "Click to open in workbin" url) else None.

(** [message_command_black(inter)], by the content of [inter.target]. *)
Definition message_command_black (self : t) (content : string) : run unit :=
  then_ (_format_black self content) (fun r =>
  let '(success, msg, url) := r in
  if negb success then emit (InterSend msg true None)
  else emit (InterSend msg false (link_button url))).

Definition newline : string := String "010" EmptyString.

(** The text of the [UserInputError] of [prefix_black]. *)
Definition no_message_error : string :=
  "You must either provide a valid message to bookmark, or reply to one."
  ++ newline ++ newline
  ++ "The lookup strategy for a message is as follows (in order):"
  ++ newline
  ++ "1. Lookup by '{channel ID}-{message ID}' (retrieved by shift-clicking on 'Copy ID')"
  ++ newline
  ++ "2. Lookup by message ID (the message **must** be in the context channel)"
  ++ newline
  ++ "3. Lookup by message URL".

(** [prefix_black(ctx, message)]. [message] is the content of the message
    argument when one was given; [reference] is [ctx.message.reference] when
    the command replies to a message, holding the content of
    [reference.resolved] when that is a message. A resolved reference that is
    [None] or a deleted message has no [content] for [_format_black] to
    read. *)
Definition prefix_black (self : t) (message : option string)
    (reference : option (option string)) : run unit :=
  then_
    (match message with
     | Some content => ret content
     | None =>
         match reference with
         | None => throw (UserInputError no_message_error)
         | Some (Some content) => ret content
         | Some None => throw (AttributeError "content")
         end
     end) (fun content =>
  then_ (_format_black self content) (fun r =>
  let '(success, msg, url) := r in
  if negb success then emit (CtxSend msg None)
  else emit (CtxSend msg (link_button url)))).

(** [run_in_snekbox(inter)], by the content of [inter.target]. *)
Definition run_in_snekbox (self : t) (content : string) : run unit :=
  then_ (await (parse_code env self content false false)) (fun r =>
  let '(success, code, _) := r in
  if negb success then emit (InterSend no_code_reply true None)
  else
    then_ (emit Defer) (fun _ =>
    match get_snekbox self with
    | None => throw (AttributeError "send_eval")
    | Some snekbox =>
        then_ (call (SendEval code) (send_eval svc snekbox content code))
          (fun res =>
        let '(msg, link) := res in
        let view :=
          if truthy link then [Button "Click to open in workbin" link]
          else [] in
        then_ (emit (EditOriginalMessage msg view)) (fun _ =>
        emit (WaitForDeletion view)))
    end)).

End WithServices.

(** The replies among the effects of a run. *)
Definition is_reply (e : effect) : bool :=
  match e with
  | InterSend _ _ _ | CtxSend _ _ | EditOriginalMessage _ _ => true
  | _ => false
  end.

Definition replies (trace : list effect) : list effect := filter is_reply trace.

(** The calls to services among the effects of a run. *)
Definition is_service_call (e : effect) : bool :=
  match e with
  | PasteService _ _ | Post _ _ _ | UploadOutput _ _ | SendEval _ => true
  | _ => false
  end.

(** A reply of the message command and the reply of the prefix command that
    says the same: [ctx.send] has no [ephemeral]. *)
Definition as_ctx (e : effect) : effect :=
  match e with
  | InterSend content _ components => CtxSend content components
  | other => other
  end.

End Commands.

(** ** [monty/exts/dev_tools.py] *)

Module DevTools.

Import Commands.

(** [disnake.User], as [invite] reads it. *)
Record User : Type := {
  bot : bool;
  name : string;
  mention : string
}.

(** The [disnake.Permissions] that [invite] builds: from an integer, or
    [Permissions(read_messages=True)]. *)
Inductive Permissions : Type :=
| Permissions_value (value : Z)
| Permissions_read_messages.

(** What [inter.bot.fetch_user] does: it returns the user, raises
    [disnake.NotFound], or raises another [HTTPException]. *)
Inductive fetched : Type :=
| Found (user : User)
| NotFound
| HTTPException.

(** What [invite] takes from outside these sources. *)
Record Discord : Type := {
  (** [int(s)] on a text; [None] stands for [ValueError] *)
  int : string -> option Z;
  (** [inter.bot.user.id] *)
  bot_user_id : Z;
  (** [inter.bot.fetch_user(client_id)] *)
  fetch_user : Z -> fetched;
  (** [disnake.utils.oauth_url(client_id, permissions=..., guild=...,
      scopes=...)]; the guild is the id of a [disnake.Object], or [None] for
      [MISSING] *)
  oauth_url : Z -> Permissions -> option Z -> list string -> string
}.

(** What [invite] does to the outside, in the order it does it. *)
Inductive effect : Type :=
(* inter.response.send_message(content, components=..., ephemeral=...) *)
| ResponseSendMessage (content : string) (components : option button)
    (ephemeral : bool)
(* inter.send(content, ephemeral=...) *)
| InterSend (content : string) (ephemeral : bool)
(* inter.bot.fetch_user(client_id) *)
| FetchUser (client_id : Z).

(** What leaves [invite]: the [HTTPException] of [fetch_user] that is not
    caught, and [disnake.InteractionResponded]. *)
Inductive raised : Type :=
| Raised_HTTPException
| InteractionResponded.

(** A step of the command, from whether the interaction has been answered:
    the effects, and the value with the new answer state, or what was
    raised. *)
Definition step (A : Type) : Type := bool -> list effect * (A * bool + raised).

Definition ret {A : Type} (a : A) : step A := fun responded =>
  ([], inl (a, responded)).

Definition then_ {A B : Type} (m : step A) (k : A -> step B) : step B :=
  fun responded =>
    match m responded with
    | (done, inl (a, responded')) =>
        let (more, r) := k a responded' in ((done ++ more)%list, r)
    | (done, inr e) => (done, inr e)
    end.

(** [inter.response.send_message]: disnake answers an interaction once
    through its response and raises [InteractionResponded] on an interaction
    that has been answered. *)
Definition response_send_message (content : string)
    (components : option button) (ephemeral : bool) : step unit :=
  fun responded =>
    if responded then ([], inr InteractionResponded)
    else ([ResponseSendMessage content components ephemeral], inl (tt, true)).

(** [inter.send]: the response when the interaction has not been answered,
    a follow-up otherwise. *)
Definition inter_send (content : string) (ephemeral : bool) : step unit :=
  fun _ => ([InterSend content ephemeral], inl (tt, true)).

Definition not_a_bot_reply : string := "Sorry, that user is not a bot.".

Section WithDiscord.
Variable d : Discord.

(** [await inter.bot.fetch_user(client_id)] inside its [try]: the user,
    [None] when [disnake.NotFound] was caught, or the exception that is not
    caught. *)
Definition try_fetch_user (client_id : Z) : step (option User) :=
  fun responded =>
    match fetch_user d client_id with
    | Found user => ([FetchUser client_id], inl (Some user, responded))
    | NotFound => ([FetchUser client_id], inl (None, responded))
    | HTTPException => ([FetchUser client_id], inr Raised_HTTPException)
    end.

(** Line 74: the [scopes] of the invite. *)
Definition scopes (include_applications_commands : bool) : list string :=
  if include_applications_commands then ["bot"; "applications.commands"]
  else ["bot"].

(** Lines 81 to 87: the [message], before the link is added to it. *)
Definition message (raw_link : bool) (client_id : Z) (user : User)
    (guild : option Z) : string :=
  (if negb raw_link then "Click below to invite"
   else "Click the following link to invite")
  ++ " "
  ++ (if client_id =? bot_user_id d then "me" else mention user)
  ++ " "
  ++ (match guild with
      | Some _ => "to the specified guild!"
      | None => "to your guild!"
      end).

(** [invite(inter, client_id, permissions, guild,
    include_applications_commands, raw_link, ephemeral)]. The three texts are
    [None] when the option was not given. [disnake.Object(guild)] raises
    [TypeError] exactly when [int(guild)] raises [ValueError]. *)
Definition invite (client_id permissions guild : option string)
    (include_applications_commands raw_link ephemeral : bool) : step unit :=
  match (match client_id with
         | Some (String _ _ as given) => int d given
         | _ => Some (bot_user_id d)
         end) with
  | None => response_send_message "client id must be an integer." None true
  | Some client_id =>
      match (match permissions with
             | Some (String _ _ as given) =>
                 option_map Permissions_value (int d given)
             | _ => Some Permissions_read_messages
             end) with
      | None =>
          response_send_message "Permissions must be an integer." None true
      | Some permissions =>
          match (match guild with
                 | Some given => option_map (@Some Z) (int d given)
                 | None => Some None
                 end) with
          | None =>
              response_send_message "Guild ID must be an integer." None true
          | Some guild =>
              then_ (try_fetch_user client_id) (fun found =>
              match found with
              | None => inter_send "Sorry, that user does not exist." true
              | Some user =>
                  then_ (if negb (bot user)
                         then inter_send not_a_bot_reply true
                         else ret tt) (fun _ =>
                  let url :=
                    oauth_url d client_id permissions guild
                      (scopes include_applications_commands) in
                  if raw_link then
                    response_send_message
                      (message raw_link client_id user guild ++ newline ++ url)
                      None ephemeral
                  else
                    response_send_message
                      (message raw_link client_id user guild)
                      (Some (Button ("Click to invite " ++ name user ++ "!")
                               (Some url)))
                      ephemeral)
              end)
          end
      end
  end.

(** Lines 36 to 43, on their own: the client id that [invite] goes on
    with, the given text as an integer or the id of the bot when no text or
    an empty one was given; [None] when the text is not an integer. *)
Definition resolved_client (client_id : option string) : option Z :=
  match client_id with
  | Some (String _ _ as given) => int d given
  | _ => Some (bot_user_id d)
  end.

(** Lines 45 to 53, on their own. *)
Definition resolved_permissions (permissions : option string)
  : option Permissions :=
  match permissions with
  | Some (String _ _ as given) => option_map Permissions_value (int d given)
  | _ => Some Permissions_read_messages
  end.

(** Lines 55 to 62, on their own: the id of the [disnake.Object], or [None]
    inside for [MISSING]; [None] outside when the text is not an integer. *)
Definition resolved_guild (guild : option string) : option (option Z) :=
  match guild with
  | Some given => option_map (@Some Z) (int d given)
  | None => Some None
  end.

End WithDiscord.

(** The replies a user saw among the effects. *)
Definition is_reply (e : effect) : bool :=
  match e with
  | ResponseSendMessage _ _ _ | InterSend _ _ => true
  | FetchUser _ => false
  end.

End DevTools.

(** ** Concrete services, for the examples *)

Module MoreExamples.

Import Commands.

(** A formatter that answers 200 with the source it was sent and a fixed
    formatted text. *)
Definition black_answer (source : option string) (formatted : string)
  : PostResponse :=
  {| post_status := 200;
     post_json := Ok [("source_code",
                        match source with Some s => s | None => "" end);
                      ("formatted_code", formatted)] |}.

Definition services (formatted : string) : Services :=
  {| send_to_paste_service := fun _ _ =>
       Ok (Some "https://paste.disnake.dev/?id=new");
     http_session_post := fun _ source _ => Ok (black_answer source formatted);
     upload_output := fun _ _ _ =>
       Ok (Some "https://paste.disnake.dev/?id=out");
     send_eval := fun _ _ _ => Ok ("done", None) |}.


(** The fetched paste with the final newline that the formatter adds. *)
Definition with_final_newline : string := "x = 1" ++ newline.

(** [int] on the decimal texts the examples use. *)
Definition int_example (s : string) : option Z :=
  if String.eqb s "42" then Some 42
  else if String.eqb s "7" then Some 7
  else None.

Definition human : DevTools.User :=
  {| DevTools.bot := false; DevTools.name := "ada"; DevTools.mention := "<@42>" |}.

Definition monty : DevTools.User :=
  {| DevTools.bot := true; DevTools.name := "monty"; DevTools.mention := "<@7>" |}.

Definition discord : DevTools.Discord :=
  {| DevTools.int := int_example;
     DevTools.bot_user_id := 7;
     DevTools.fetch_user := fun id =>
       if id =? 42 then DevTools.Found human
       else if id =? 7 then DevTools.Found monty
       else DevTools.NotFound;
     DevTools.oauth_url := fun _ _ _ _ => "https://discord.com/oauth2/authorize" |}.

End MoreExamples.

(** * Properties *)

Unset Implicit Arguments.

(** ** Texts *)

Section StringFacts.

Lemma append_nil_r (s : string) : s ++ "" = s.
Proof. induction s as [|c s IH]; simpl; [reflexivity | now rewrite IH]. Qed.

Lemma append_assoc (a b c : string) : (a ++ b) ++ c = a ++ (b ++ c).
Proof. induction a as [|x a IH]; simpl; [reflexivity | now rewrite IH]. Qed.

Lemma length_append (a b : string) :
  String.length (a ++ b) = (String.length a + String.length b)%nat.
Proof. induction a as [|x a IH]; simpl; [reflexivity | now rewrite IH]. Qed.

Lemma strip_prefix_app (p t : string) : strip_prefix p (p ++ t) = Some t.
Proof.
  induction p as [|a p IH]; simpl; [reflexivity|].
  now rewrite Ascii.eqb_refl.
Qed.

Lemma strip_prefix_inv (p s t : string) :
  strip_prefix p s = Some t -> s = p ++ t.
Proof.
  revert s; induction p as [|a p IH]; intros s H; simpl in *.
  - now inversion H.
  - destruct s as [|b s]; [discriminate|].
    destruct (Ascii.eqb a b) eqn:E; [|discriminate].
    apply Ascii.eqb_eq in E; subst b.
    now rewrite (IH _ H).
Qed.

Lemma take_app (m t : string) :
  take (String.length (m ++ t) - String.length t) (m ++ t) = m.
Proof.
  rewrite length_append.
  replace (String.length m + String.length t - String.length t)%nat
    with (String.length m) by lia.
  induction m as [|c m IH]; simpl.
  - now destruct t.
  - now rewrite IH.
Qed.

Lemma truthy_false (o : option string) :
  truthy o = false <-> o = None \/ o = Some "".
Proof.
  destruct o as [[|c s]|]; simpl; split; intros H; auto; try discriminate.
  destruct H as [H|H]; discriminate.
Qed.

Lemma truthy_true (o : option string) :
  truthy o = true <-> exists c s, o = Some (String c s).
Proof.
  destruct o as [[|c s]|]; simpl; split; intros H; try discriminate; eauto;
    destruct H as (c' & s' & H); discriminate.
Qed.

Lemma len_pos (c : ascii) (s : string) : 0 < len (String c s).
Proof. unfold len; simpl String.length; lia. Qed.

Lemma len_String (c : ascii) (s : string) : len (String c s) = 1 + len s.
Proof. unfold len; simpl String.length; lia. Qed.

Lemma len_repeat_char (c : ascii) (n : nat) :
  len (Examples.repeat_char c n) = Z.of_nat n.
Proof.
  induction n as [|n IH]; [reflexivity|].
  simpl Examples.repeat_char. rewrite len_String, IH. lia.
Qed.

Lemma len_body_max : len Examples.body_max = 20000.
Proof.
  unfold Examples.body_max.
  rewrite len_String, len_repeat_char, Z2Nat.id;
    unfold CodeButtons.MAX_LEN; lia.
Qed.

End StringFacts.

(** ** The matcher finds exactly what the pattern denotes *)

Section RegexFacts.

Variable A : Type.
Implicit Types (k : string -> option A) (r : Re.regex).

Lemma star_sound cls s k x :
  Re.star cls s k = Some x ->
  exists m t, s = m ++ t /\ all_chars cls m = true /\ k t = Some x.
Proof.
  induction s as [|c s IH]; simpl; intros H.
  - exists "", ""; auto.
  - destruct (cls c) eqn:Ec.
    + destruct (Re.star cls s k) as [y|] eqn:Es.
      * inversion H; subst y.
        destruct (IH eq_refl) as (m & t & -> & Hm & Hk).
        exists (String c m), t; simpl; rewrite Ec; auto.
      * exists "", (String c s); auto.
    + exists "", (String c s); auto.
Qed.

Lemma star_complete cls m t k :
  all_chars cls m = true -> k t <> None -> Re.star cls (m ++ t) k <> None.
Proof.
  induction m as [|c m IH]; simpl; intros Hm Hk.
  - destruct t as [|c t]; simpl; auto.
    destruct (cls c); auto.
    destruct (Re.star cls t k); [discriminate | auto].
  - apply andb_true_iff in Hm as [Hc Hm]; rewrite Hc.
    specialize (IH Hm Hk).
    destruct (Re.star cls (m ++ t) k); [discriminate | contradiction].
Qed.

Lemma exec_sound r : forall s k x,
  Re.exec r s k = Some x ->
  exists m t, s = m ++ t /\ Re.matches r m /\ k t = Some x.
Proof.
  induction r as [l | a IHa b IHb | a IHa b IHb | a IHa | cls];
    simpl; intros s k x H.
  - destruct (strip_prefix l s) as [t|] eqn:E; [|discriminate].
    exists l, t; repeat split; auto using strip_prefix_inv.
  - destruct (IHa _ _ _ H) as (m1 & t1 & -> & H1 & Hb).
    destruct (IHb _ _ _ Hb) as (m2 & t2 & -> & H2 & Hk).
    exists (m1 ++ m2), t2; rewrite append_assoc.
    repeat split; [| assumption]. now exists m1, m2.
  - destruct (Re.exec a s k) as [y|] eqn:Ea.
    + inversion H; subst y.
      destruct (IHa _ _ _ Ea) as (m & t & ? & ? & ?).
      exists m, t; auto.
    + destruct (IHb _ _ _ H) as (m & t & ? & ? & ?).
      exists m, t; auto.
  - destruct (Re.exec a s k) as [y|] eqn:Ea.
    + inversion H; subst y.
      destruct (IHa _ _ _ Ea) as (m & t & ? & ? & ?).
      exists m, t; auto.
    + exists "", s; auto.
  - destruct s as [|c s]; [discriminate|].
    destruct (cls c) eqn:Ec; [|discriminate].
    destruct (@star_sound _ _ _ _ H) as (m & t & -> & Hm & Hk).
    exists (String c m), t; simpl; rewrite Ec; repeat split; auto.
    discriminate.
Qed.

Lemma exec_complete r : forall m t k,
  Re.matches r m -> k t <> None -> Re.exec r (m ++ t) k <> None.
Proof.
  induction r as [l | a IHa b IHb | a IHa b IHb | a IHa | cls];
    simpl; intros m t k Hm Hk.
  - subst m; now rewrite strip_prefix_app.
  - destruct Hm as (m1 & m2 & -> & H1 & H2).
    rewrite append_assoc.
    apply IHa; [assumption|]. now apply IHb.
  - destruct (Re.exec a (m ++ t) k) eqn:Ea; [discriminate|].
    destruct Hm as [Hm|Hm]; [|now apply IHb].
    exfalso; revert Ea; now apply IHa.
  - destruct (Re.exec a (m ++ t) k) eqn:Ea; [discriminate|].
    destruct Hm as [->|Hm]; [assumption|].
    exfalso; revert Ea; now apply IHa.
  - destruct Hm as [Hne Hall].
    destruct m as [|c m]; [contradiction|]; simpl in *.
    apply andb_true_iff in Hall as [Hc Hall]; rewrite Hc.
    now apply star_complete.
Qed.

End RegexFacts.

Section SearchFacts.

Implicit Types (r : Re.regex) (s m : string).

Lemma match_sound r s m :
  Re.match_ r s = Some m -> exists t, s = m ++ t /\ Re.matches r m.
Proof.
  unfold Re.match_; intros H.
  destruct (Re.exec r s (fun rest => Some rest)) as [rest|] eqn:E;
    [|discriminate].
  destruct (@exec_sound _ _ _ _ _ E) as (m' & t & -> & Hm & Ht).
  inversion Ht; subst rest.
  rewrite take_app in H; inversion H; subst m'; eauto.
Qed.

Lemma match_complete r m t :
  Re.matches r m -> Re.match_ r (m ++ t) <> None.
Proof.
  intros Hm; unfold Re.match_.
  destruct (Re.exec r (m ++ t) (fun rest => Some rest)) eqn:E;
    [discriminate|].
  exfalso; revert E; apply exec_complete; [assumption | discriminate].
Qed.

Lemma search_sound r s m :
  Re.search r s = Some m ->
  Re.matches r m /\ exists before after, s = before ++ m ++ after.
Proof.
  induction s as [|c s IH]; simpl; intros H.
  - destruct (Re.match_ r "") as [m'|] eqn:E; [|discriminate].
    inversion H; subst m'.
    destruct (@match_sound _ _ _ E) as (t & Hs & Hm).
    split; [assumption | exists "", t; assumption].
  - destruct (Re.match_ r (String c s)) as [m'|] eqn:E.
    + inversion H; subst m'.
      destruct (@match_sound _ _ _ E) as (t & Hs & Hm).
      split; [assumption | exists "", t; assumption].
    + destruct (IH H) as (Hm & before & after & ->).
      split; [assumption | exists (String c before), after; reflexivity].
Qed.

Lemma search_complete r s : Re.contains r s -> Re.search r s <> None.
Proof.
  intros (before & m & after & -> & Hm).
  induction before as [|c before IH]; simpl.
  - pose proof (@match_complete r m after Hm) as Hc.
    destruct (m ++ after); simpl;
      (destruct (Re.match_ r _); [discriminate | contradiction]).
  - destruct (Re.match_ r _); [discriminate | exact IH].
Qed.

(** [search] answers [None] exactly on the texts without a match, and
    otherwise returns a substring that the pattern matches. *)
Lemma search_None r s : Re.search r s = None <-> ~ Re.contains r s.
Proof.
  split.
  - intros H Hc; now apply (@search_complete r s Hc).
  - intros Hn; destruct (Re.search r s) as [m|] eqn:E; [|reflexivity].
    exfalso; apply Hn.
    destruct (@search_sound r s m E) as (Hm & before & after & ->).
    now exists before, m, after.
Qed.

Lemma search_contains r s :
  Re.contains r s -> exists m, Re.search r s = Some m /\ Re.matches r m.
Proof.
  intros Hc; destruct (Re.search r s) as [m|] eqn:E.
  - exists m; split; [reflexivity | now apply (@search_sound r s m E)].
  - now apply search_complete in Hc.
Qed.

End SearchFacts.

(** ** What [PASTE_REGEX] matches *)

Section PasteRegexFacts.

Import CodeButtons.

(** A paste link is an optional [http://] or [https://], the host
    [paste.disnake.dev] or [paste.nextcord.dev], a slash and at least one
    character that is not white space. *)
Lemma paste_url_shape (m : string) :
  Re.matches PASTE_REGEX m <->
  exists scheme host path,
    m = scheme ++ "paste." ++ host ++ ".dev/" ++ path
    /\ (scheme = "" \/ scheme = "http://" \/ scheme = "https://")
    /\ (host = "disnake" \/ host = "nextcord")
    /\ path <> ""
    /\ all_chars (fun c => negb (isspace c)) path = true.
Proof.
  split.
  - intros (m1 & m2 & -> & Hs & m3 & m4 & -> & -> & m5 & m6 & -> & Hh
            & m7 & m8 & -> & -> & Hne & Hall).
    exists m1, m5, m8.
    split; [reflexivity|]. split; [|now repeat split].
    destruct Hs as [->|(a & b & -> & -> & c & d & -> & Hc & ->)]; [now left|].
    destruct Hc as [->| ->]; simpl; auto.
  - intros (scheme & host & path & -> & Hs & Hh & Hne & Hall).
    exists scheme, ("paste." ++ host ++ ".dev/" ++ path).
    split; [reflexivity|]. split.
    + destruct Hs as [->|[->| ->]]; [now left| |]; right.
      * exists "http", "://"; repeat split. exists "", "://"; repeat split; now left.
      * exists "http", "s://"; repeat split. exists "s", "://"; repeat split; now right.
    + exists "paste.", (host ++ ".dev/" ++ path); repeat split.
      exists host, (".dev/" ++ path); repeat split; [assumption|].
      exists ".dev/", path; repeat split; assumption.
Qed.

(** The scheme and the host of a matched link hold neither [?] nor [#]: the
    query of the link is the query of its path. *)
Lemma matched_link_query (scheme host path : string) :
  scheme = "" \/ scheme = "http://" \/ scheme = "https://" ->
  host = "disnake" \/ host = "nextcord" ->
  Urllib.urlparse_query (scheme ++ "paste." ++ host ++ ".dev/" ++ path)
  = Urllib.urlparse_query path.
Proof.
  unfold Urllib.urlparse_query.
  intros [->|[->| ->]] [->| ->]; simpl;
    destruct (split_once "#" path) as [[before after]|]; simpl;
    match goal with
    | |- context [split_once "?" ?s] =>
        destruct (split_once "?" s) as [[p q]|]; reflexivity
    end.
Qed.

End PasteRegexFacts.

(** ** The pipeline *)

Section PipelineFacts.

Import CodeButtons.

Variable env : Imports.
Variable self : CodeButtons.t.
Implicit Types (content matched id : string) (require_fenced check_is_python : bool).

(** [get_code] never returns the empty text. *)
Lemma get_code_nonempty content require_fenced check_is_python :
  truthy (get_code self content require_fenced check_is_python) = true
  \/ get_code self content require_fenced check_is_python = None.
Proof.
  unfold get_code.
  destruct (get_snekbox self) as [snekbox|]; [|now right].
  destruct (prepare_input snekbox content require_fenced) as [[|c code]|];
    [now right | | now right].
  destruct check_is_python; [|now left].
  destruct (get_codeblock_cog self) as [codeblock|]; [|now left].
  destruct (is_python_code codeblock (String c code)); simpl; auto.
Qed.

(** The last four lines of [parse_code] are the eligibility filter. *)
Lemma parse_code_decide content require_fenced check_is_python :
  parse_code env self content require_fenced check_is_python
  = (fetched <- check_paste_link env self content ;;
     Ok (Spec.decide
           (if truthy fetched then fetched
            else get_code self content require_fenced check_is_python)
           (truthy fetched))).
Proof.
  unfold parse_code, Spec.decide, Spec.is_eligible.
  destruct (check_paste_link env self content) as [fetched|e]; simpl;
    [|reflexivity].
  destruct (truthy fetched);
    [destruct fetched as [[|c s]|]
    |destruct (get_code self content require_fenced check_is_python)
       as [[|c s]|]];
    try reflexivity;
    now destruct (len (String c s) >? MAX_LEN).
Qed.

Lemma check_paste_link_no_match content :
  Re.search PASTE_REGEX content = None ->
  check_paste_link env self content = Ok None.
Proof. unfold check_paste_link; now intros ->. Qed.

Lemma check_paste_link_response content matched id resp :
  Re.search PASTE_REGEX content = Some matched ->
  paste_id env matched = Ok id ->
  http_session_get (bot self) (raw_paste_endpoint_format env id) = Ok resp ->
  check_paste_link env self content
  = if status resp =? 200 then (body <- text resp ;; Ok (Some body))
    else Ok None.
Proof.
  unfold check_paste_link; intros -> -> Hresp; simpl.
  rewrite Hresp; simpl.
  now destruct (status resp =? 200).
Qed.

(** [parse_code] raises exactly what [check_paste_link] raises: neither has
    a handler. *)
Lemma parse_code_raises content require_fenced check_is_python e :
  parse_code env self content require_fenced check_is_python = Raise e
  <-> check_paste_link env self content = Raise e.
Proof.
  rewrite parse_code_decide.
  destruct (check_paste_link env self content) as [fetched|e']; simpl;
    split; intros H; try discriminate H; now inversion H.
Qed.

Lemma decide_rejects candidate is_paste :
  Spec.decide candidate is_paste = (false, None, None)
  <-> candidate = None \/ candidate = Some ""
      \/ exists c, candidate = Some c /\ len c > MAX_LEN.
Proof.
  unfold Spec.decide, Spec.is_eligible.
  destruct candidate as [[|c s]|]; [tauto | | tauto].
  destruct (len (String c s) >? MAX_LEN) eqn:E; simpl.
  - split; [|reflexivity]. intros _. right; right.
    exists (String c s); split; [reflexivity|].
    now apply Z.gtb_lt, Z.lt_gt in E.
  - split; [discriminate|].
    intros [H|[H|(c' & H & Hlen)]]; try discriminate.
    inversion H; subst c'.
    rewrite Z.gtb_ltb in E; apply Z.ltb_ge in E; lia.
Qed.

Lemma decide_accepts c is_paste :
  c <> "" -> len c <= MAX_LEN ->
  Spec.decide (Some c) is_paste = (true, Some c, Some is_paste).
Proof.
  unfold Spec.decide, Spec.is_eligible; intros Hne Hlen.
  destruct c as [|a s]; [contradiction|].
  destruct (len (String a s) >? MAX_LEN) eqn:E; [|reflexivity].
  apply Z.gtb_lt in E; lia.
Qed.

End PipelineFacts.

(** ** Claims about [parse_code] *)

Section Claims.

Import CodeButtons.

(** C1, as the specification has it, fails: a message with a paste link
    whose fetch answers 404 is not rejected. The link text itself goes
    through [get_code] and comes back as accepted inline code. *)
Lemma failed_fetch_is_not_rejected :
  Re.search PASTE_REGEX Examples.paste_message = Some Examples.paste_message
  /\ check_paste_link Examples.env
       (Examples.cog_with (Examples.session_status 404 "Not Found")
          (fun _ => true))
       Examples.paste_message = Ok None
  /\ parse_code Examples.env
       (Examples.cog_with (Examples.session_status 404 "Not Found")
          (fun _ => true))
       Examples.paste_message false false
     = Ok (true, Some Examples.paste_message, Some false).
Proof. repeat split; vm_compute; reflexivity. Qed.

(** C1 (amended): for a message in which [PASTE_REGEX] finds a link with an
    [id] whose request is answered, [parse_code] leaves [get_code] aside
    only when the answer is 200 with a non-empty body, which is then the
    candidate marked as a paste. When the answer is not 200,
    [check_paste_link] returns nothing and [parse_code] does fall back: its
    outcome is the eligibility decision on
    [get_code(content, require_fenced, check_is_python)], marked as not a
    paste. *)
Theorem paste_link_fetch_outcome
    (env : Imports) (self : t) (content matched id : string)
    (resp : Response) (require_fenced check_is_python : bool) :
  Re.search PASTE_REGEX content = Some matched ->
  paste_id env matched = Ok id ->
  http_session_get (bot self) (raw_paste_endpoint_format env id) = Ok resp ->
  (forall body,
      status resp = 200 -> text resp = Ok body -> body <> "" ->
      parse_code env self content require_fenced check_is_python
      = Ok (Spec.decide (Some body) true))
  /\ (status resp <> 200 ->
      check_paste_link env self content = Ok None
      /\ parse_code env self content require_fenced check_is_python
         = Ok (Spec.decide
                 (get_code self content require_fenced check_is_python)
                 false)).
Proof.
  intros Hm Hid Hresp.
  pose proof (check_paste_link_response env self content matched id resp Hm Hid Hresp) as Hlink.
  split.
  - intros body Hs Ht Hne.
    rewrite parse_code_decide, Hlink, Hs, Ht; simpl.
    destruct body; [contradiction | reflexivity].
  - intros Hs. apply Z.eqb_neq in Hs. rewrite Hs in Hlink.
    split; [exact Hlink|].
    now rewrite parse_code_decide, Hlink.
Qed.

(** C2, as the specification has it, fails: the session's time-out leaves
    [check_paste_link] and [parse_code] as an exception. *)
Lemma timeout_reaches_the_caller :
  parse_code Examples.env
    (Examples.cog_with Examples.session_timeout (fun _ => true))
    Examples.paste_message false false
  = Raise TimeoutError.
Proof. vm_compute; reflexivity. Qed.

(** C2 (amended): whenever the request of [check_paste_link] is answered
    (there is no paste link, or the link carries an [id], the session
    returns a response and the body of a 200 response can be read),
    [parse_code] returns a tuple and raises nothing, for every flag
    combination; an answer other than 200 is turned into "no paste
    resolved". Neither function has a handler: whatever the session raises
    for the request, a time-out or a client error, and whatever reading
    the body of a 200 response raises, leaves [check_paste_link] and
    [parse_code] unchanged and reaches the caller. *)
Theorem parse_code_returns_or_propagates
    (env : Imports) (self : t) (content : string)
    (require_fenced check_is_python : bool) :
  (Spec.fetch_answered env self content ->
   exists fetched result,
     check_paste_link env self content = Ok fetched
     /\ parse_code env self content require_fenced check_is_python = Ok result
     /\ (forall matched id resp,
            Re.search PASTE_REGEX content = Some matched ->
            paste_id env matched = Ok id ->
            http_session_get (bot self) (raw_paste_endpoint_format env id)
            = Ok resp ->
            status resp <> 200 -> fetched = None))
  /\ (forall matched id e,
         Re.search PASTE_REGEX content = Some matched ->
         paste_id env matched = Ok id ->
         http_session_get (bot self) (raw_paste_endpoint_format env id)
         = Raise e ->
         check_paste_link env self content = Raise e
         /\ parse_code env self content require_fenced check_is_python
            = Raise e)
  /\ (forall matched id resp e,
         Re.search PASTE_REGEX content = Some matched ->
         paste_id env matched = Ok id ->
         http_session_get (bot self) (raw_paste_endpoint_format env id)
         = Ok resp ->
         status resp = 200 ->
         text resp = Raise e ->
         check_paste_link env self content = Raise e
         /\ parse_code env self content require_fenced check_is_python
            = Raise e).
Proof.
  split; [|split].
  - unfold Spec.fetch_answered; intros Hans.
    assert (exists fetched, check_paste_link env self content = Ok fetched)
      as [fetched Hf].
    { destruct (Re.search PASTE_REGEX content) as [matched|] eqn:Hm.
      - destruct Hans as (id & resp & Hid & Hresp & Hbody).
        rewrite (check_paste_link_response env self content matched id resp
                   Hm Hid Hresp).
        destruct (status resp =? 200) eqn:Hs; [|eauto].
        apply Z.eqb_eq in Hs. destruct (Hbody Hs) as [body ->]; simpl; eauto.
      - rewrite (check_paste_link_no_match env self content Hm); eauto. }
    exists fetched. eexists. split; [exact Hf|]. split.
    + rewrite parse_code_decide, Hf; simpl; reflexivity.
    + intros matched id resp Hm Hid Hresp Hs.
      rewrite (check_paste_link_response env self content matched id resp
                 Hm Hid Hresp) in Hf.
      apply Z.eqb_neq in Hs; rewrite Hs in Hf. now inversion Hf.
  - intros matched id e Hm Hid Hraise.
    assert (check_paste_link env self content = Raise e) as Hl.
    { unfold check_paste_link. rewrite Hm, Hid; simpl. now rewrite Hraise. }
    split; [exact Hl|]. now apply parse_code_raises.
  - intros matched id resp e Hm Hid Hresp Hs Ht.
    assert (check_paste_link env self content = Raise e) as Hl.
    { rewrite (check_paste_link_response env self content matched id resp
                 Hm Hid Hresp).
      apply Z.eqb_eq in Hs. now rewrite Hs, Ht. }
    split; [exact Hl|]. now apply parse_code_raises.
Qed.

(** C3: whenever [parse_code] reports success, the code it returns is
    present, non-empty and at most 20,000 characters long. *)
Theorem accepted_code_bounds
    (env : Imports) (self : t) (content : string)
    (require_fenced check_is_python : bool)
    (code : option string) (is_paste : option bool) :
  parse_code env self content require_fenced check_is_python
  = Ok (true, code, is_paste) ->
  exists c, code = Some c /\ c <> "" /\ 0 < len c <= 20000.
Proof.
  rewrite parse_code_decide.
  destruct (check_paste_link env self content) as [fetched|e]; simpl;
    [|discriminate].
  unfold Spec.decide, Spec.is_eligible.
  set (candidate := if truthy fetched then fetched else _).
  destruct candidate as [[|a s]|]; try discriminate.
  destruct (len (String a s) >? MAX_LEN) eqn:E; simpl; [discriminate|].
  intros H; inversion H; subst.
  exists (String a s).
  split; [reflexivity|]. split; [discriminate|]. split; [apply len_pos|].
  rewrite Z.gtb_ltb in E; apply Z.ltb_ge in E. exact E.
Qed.

End Claims.

(** ** Collaborators that behave as the same functions *)

Section StableFacts.

Import CodeButtons.

Variables env1 env2 : Imports.
Variables self1 self2 : CodeButtons.t.
Hypothesis Hstable : Spec.stable env1 env2 self1 self2.

Lemma stable_parse_qsl qs :
  Urllib.parse_qsl (unquote env1) qs = Urllib.parse_qsl (unquote env2) qs.
Proof.
  destruct Hstable as (Hu & _).
  unfold Urllib.parse_qsl. apply flat_map_ext; intros name_value.
  destruct (split_once "=" name_value) as [[name [|c v]]|]; try reflexivity.
  now rewrite !Hu.
Qed.

Lemma stable_paste_id matched :
  paste_id env1 matched = paste_id env2 matched.
Proof.
  unfold paste_id, Urllib.parse_qs. now rewrite stable_parse_qsl.
Qed.

Lemma stable_check_paste_link content :
  check_paste_link env1 self1 content = check_paste_link env2 self2 content.
Proof.
  destruct Hstable as (_ & He & Hh & _).
  unfold check_paste_link.
  destruct (Re.search PASTE_REGEX content) as [matched|]; [|reflexivity].
  rewrite stable_paste_id.
  destruct (paste_id env2 matched) as [id|e]; simpl; [|reflexivity].
  now rewrite He, Hh.
Qed.

Lemma stable_get_code content require_fenced check_is_python :
  get_code self1 content require_fenced check_is_python
  = get_code self2 content require_fenced check_is_python.
Proof.
  destruct Hstable as (_ & _ & _ & Hs & Hc).
  unfold get_code.
  destruct (get_snekbox self1) as [s1|], (get_snekbox self2) as [s2|];
    simpl in Hs; try contradiction; [|reflexivity].
  rewrite Hs.
  destruct (prepare_input s2 content require_fenced) as [[|c code]|];
    try reflexivity.
  destruct check_is_python; [|reflexivity].
  destruct (get_codeblock_cog self1) as [c1|],
           (get_codeblock_cog self2) as [c2|];
    simpl in Hc; try contradiction; [|reflexivity].
  now rewrite Hc.
Qed.

End StableFacts.

Section MoreClaims.

Import CodeButtons.

(** C4: [parse_code] decides on the candidate code, which is the fetched
    paste when there is a non-empty one and what [get_code] extracts
    otherwise. Whatever the origin, the outcome is the rejection exactly when
    the candidate is absent, empty or longer than 20,000 characters, and the
    candidate is accepted otherwise; a candidate of exactly 20,000
    characters is accepted. The decision is that of the specification's
    [is_eligible]. *)
Theorem eligibility_decision
    (env : Imports) (self : t) (content : string)
    (require_fenced check_is_python : bool)
    (fetched candidate : option string) :
  check_paste_link env self content = Ok fetched ->
  candidate = (if truthy fetched then fetched
               else get_code self content require_fenced check_is_python) ->
  parse_code env self content require_fenced check_is_python
  = Ok (if Spec.is_eligible candidate 20000
        then (true, candidate, Some (truthy fetched))
        else (false, None, None))
  /\ (Spec.is_eligible candidate 20000 = false
      <-> candidate = None \/ candidate = Some ""
          \/ exists c, candidate = Some c /\ len c > 20000)
  /\ (forall c, candidate = Some c -> len c = 20000 ->
      parse_code env self content require_fenced check_is_python
      = Ok (true, Some c, Some (truthy fetched))).
Proof.
  intros Hf Hc.
  assert (parse_code env self content require_fenced check_is_python
          = Ok (Spec.decide candidate (truthy fetched))) as Hp
    by (rewrite parse_code_decide, Hf, Hc; reflexivity).
  split; [exact Hp|]. split.
  - pose proof (decide_rejects candidate (truthy fetched)) as Hd.
    unfold Spec.decide, MAX_LEN in Hd.
    destruct (Spec.is_eligible candidate 20000); [|tauto].
    split; [discriminate|]. intros H; apply Hd in H; discriminate.
  - intros c -> Hlen. rewrite Hp. f_equal.
    apply decide_accepts; unfold MAX_LEN; [|lia].
    intros ->; discriminate.
Qed.

(** C5: a message without a paste link and without a fenced code block is
    rejected when [require_fenced] is true, whether or not the Snekbox cog
    is loaded, its [prepare_input] being the extractor of the
    specification. *)
Theorem unfenced_message_rejected
    (env : Imports) (self : t) (content : string) (check_is_python : bool) :
  ~ Re.contains PASTE_REGEX content ->
  SnekboxSpec.fenced_region content = None ->
  (forall snekbox, get_snekbox self = Some snekbox ->
     forall text require_fenced,
       prepare_input snekbox text require_fenced
       = SnekboxSpec.prepare_input text require_fenced) ->
  parse_code env self content true check_is_python = Ok (false, None, None).
Proof.
  intros Hno Hfence Hcog.
  apply search_None in Hno.
  rewrite parse_code_decide, (check_paste_link_no_match env self content Hno).
  simpl.
  replace (get_code self content true check_is_python) with (@None string);
    [reflexivity|].
  unfold get_code.
  destruct (get_snekbox self) as [snekbox|] eqn:Hs; [|reflexivity].
  rewrite (Hcog snekbox eq_refl).
  unfold SnekboxSpec.prepare_input. now rewrite Hfence.
Qed.

(** C6: on a message without a paste link [check_paste_link] returns [None]
    and raises nothing, and [parse_code] decides on what [get_code] extracts
    from the message under the flags it was given. *)
Theorem no_paste_link_falls_back
    (env : Imports) (self : t) (content : string)
    (require_fenced check_is_python : bool) :
  ~ Re.contains PASTE_REGEX content ->
  check_paste_link env self content = Ok None
  /\ parse_code env self content require_fenced check_is_python
     = Ok (Spec.decide (get_code self content require_fenced check_is_python)
             false).
Proof.
  intros Hno. apply search_None in Hno.
  pose proof (check_paste_link_no_match env self content Hno) as Hl.
  split; [exact Hl|]. now rewrite parse_code_decide, Hl.
Qed.

(** C7: two invocations on the same message and flags, made while the
    collaborators behave as the same functions (same paste behind every
    URL, same extractor, same classifier), give the same result, be it a
    tuple or an exception. *)
Theorem parse_code_deterministic
    (env1 env2 : Imports) (self1 self2 : t) (content : string)
    (require_fenced check_is_python : bool) :
  Spec.stable env1 env2 self1 self2 ->
  parse_code env1 self1 content require_fenced check_is_python
  = parse_code env2 self2 content require_fenced check_is_python.
Proof.
  intros Hst. rewrite !parse_code_decide.
  rewrite (stable_check_paste_link env1 env2 self1 self2 Hst).
  now rewrite (stable_get_code env1 env2 self1 self2 Hst).
Qed.

(** C8: a fetch that answers 200 with an empty body counts as no paste:
    [parse_code] decides on what [get_code] extracts from the message, and
    its result is never marked as a paste. *)
Theorem empty_paste_body_falls_back
    (env : Imports) (self : t) (content matched id : string)
    (resp : Response) (require_fenced check_is_python : bool) :
  Re.search PASTE_REGEX content = Some matched ->
  paste_id env matched = Ok id ->
  http_session_get (bot self) (raw_paste_endpoint_format env id) = Ok resp ->
  status resp = 200 ->
  text resp = Ok "" ->
  check_paste_link env self content = Ok (Some "")
  /\ parse_code env self content require_fenced check_is_python
     = Ok (Spec.decide (get_code self content require_fenced check_is_python)
             false)
  /\ (forall success code is_paste,
         parse_code env self content require_fenced check_is_python
         = Ok (success, code, is_paste) ->
         is_paste <> Some true).
Proof.
  intros Hm Hid Hresp Hs Ht.
  pose proof (check_paste_link_response env self content matched id resp
                Hm Hid Hresp) as Hl.
  rewrite Hs, Ht in Hl; simpl in Hl.
  assert (parse_code env self content require_fenced check_is_python
          = Ok (Spec.decide
                  (get_code self content require_fenced check_is_python)
                  false)) as Hp
    by (rewrite parse_code_decide, Hl; reflexivity).
  split; [exact Hl|]. split; [exact Hp|].
  intros success code is_paste H. rewrite Hp in H.
  unfold Spec.decide in H.
  destruct (Spec.is_eligible _ _); inversion H; discriminate.
Qed.


(** C10: without the code-block cog, [check_is_python] changes nothing:
    [get_code] returns the code that [prepare_input] extracted, with no
    language check and no rejection. *)
Theorem missing_codeblock_cog_skips_check (self : t) :
  get_codeblock_cog self = None ->
  (forall content require_fenced,
      get_code self content require_fenced true
      = get_code self content require_fenced false)
  /\ (forall snekbox content require_fenced c code,
         get_snekbox self = Some snekbox ->
         prepare_input snekbox content require_fenced = Some (String c code) ->
         get_code self content require_fenced true = Some (String c code)).
Proof.
  intros Hc. split.
  - intros content require_fenced. unfold get_code.
    destruct (get_snekbox self) as [snekbox|]; [|reflexivity].
    destruct (prepare_input snekbox content require_fenced) as [[|c code]|];
      try reflexivity.
    now rewrite Hc.
  - intros snekbox content require_fenced c code Hs Hp.
    unfold get_code. now rewrite Hs, Hp, Hc.
Qed.

End MoreClaims.

(** ** The claims at concrete messages *)

Section Instances.

Import CodeButtons Examples.

(** A dead paste link: the 404 makes [parse_code] fall back to [get_code]. *)
Lemma paste_link_fetch_outcome_404 :
  Re.search PASTE_REGEX paste_message = Some paste_message
  /\ paste_id env paste_message = Ok "abcd"
  /\ http_session_get
       (bot (cog_with (session_status 404 "Not Found") (fun _ => true)))
       (raw_paste_endpoint_format env "abcd")
     = Ok (response 404 "Not Found")
  /\ ((forall body,
          status (response 404 "Not Found") = 200 ->
          text (response 404 "Not Found") = Ok body -> body <> "" ->
          parse_code env
            (cog_with (session_status 404 "Not Found") (fun _ => true))
            paste_message false false
          = Ok (Spec.decide (Some body) true))
      /\ (status (response 404 "Not Found") <> 200 ->
          check_paste_link env
            (cog_with (session_status 404 "Not Found") (fun _ => true))
            paste_message = Ok None
          /\ parse_code env
               (cog_with (session_status 404 "Not Found") (fun _ => true))
               paste_message false false
             = Ok (Spec.decide
                     (get_code
                        (cog_with (session_status 404 "Not Found")
                           (fun _ => true))
                        paste_message false false)
                     false))).
Proof.
  split; [reflexivity|]. split; [reflexivity|]. split; [reflexivity|].
  apply (paste_link_fetch_outcome env
           (cog_with (session_status 404 "Not Found") (fun _ => true))
           paste_message paste_message "abcd" (response 404 "Not Found")
           false false); reflexivity.
Defined.

(** A live paste link: the request is answered and [parse_code] returns.
    A session that times out, and a body that cannot be decoded: the
    exception leaves [parse_code]. *)
Lemma parse_code_returns_or_propagates_examples :
  Spec.fetch_answered env
    (cog_with (session_status 200 "x = 1") (fun _ => true)) paste_message
  /\ (exists fetched result,
        check_paste_link env
          (cog_with (session_status 200 "x = 1") (fun _ => true))
          paste_message = Ok fetched
        /\ parse_code env
             (cog_with (session_status 200 "x = 1") (fun _ => true))
             paste_message true true = Ok result
        /\ (forall matched id resp,
               Re.search PASTE_REGEX paste_message = Some matched ->
               paste_id env matched = Ok id ->
               http_session_get
                 (bot (cog_with (session_status 200 "x = 1") (fun _ => true)))
                 (raw_paste_endpoint_format env id) = Ok resp ->
               status resp <> 200 -> fetched = None))
  /\ (check_paste_link env (cog_with session_timeout (fun _ => true))
        paste_message = Raise TimeoutError
      /\ parse_code env (cog_with session_timeout (fun _ => true))
           paste_message true true = Raise TimeoutError)
  /\ (check_paste_link env
        (cog_with
           (fun _ => Ok {| status := 200; text := Raise UnicodeDecodeError |})
           (fun _ => true))
        paste_message = Raise UnicodeDecodeError
      /\ parse_code env
           (cog_with
              (fun _ => Ok {| status := 200; text := Raise UnicodeDecodeError |})
              (fun _ => true))
           paste_message true true = Raise UnicodeDecodeError).
Proof.
  assert (Spec.fetch_answered env
            (cog_with (session_status 200 "x = 1") (fun _ => true))
            paste_message) as Hans.
  { exists "abcd", (response 200 "x = 1").
    split; [reflexivity|]. split; [reflexivity|].
    intros _; exists "x = 1"; reflexivity. }
  split; [exact Hans|]. split; [|split].
  - exact (proj1 (parse_code_returns_or_propagates env
                    (cog_with (session_status 200 "x = 1") (fun _ => true))
                    paste_message true true) Hans).
  - exact (proj1 (proj2 (parse_code_returns_or_propagates env
                           (cog_with session_timeout (fun _ => true))
                           paste_message true true))
             paste_message "abcd" TimeoutError eq_refl eq_refl eq_refl).
  - exact (proj2 (proj2 (parse_code_returns_or_propagates env
                           (cog_with
                              (fun _ => Ok {| status := 200;
                                              text := Raise UnicodeDecodeError |})
                              (fun _ => true))
                           paste_message true true))
             paste_message "abcd"
             {| status := 200; text := Raise UnicodeDecodeError |}
             UnicodeDecodeError eq_refl eq_refl eq_refl eq_refl eq_refl).
Defined.

(** Example 3 of the specification: the fetched paste is accepted. *)
Lemma accepted_code_bounds_live_paste :
  parse_code env (cog_with (session_status 200 "x = 1") (fun _ => true))
    paste_message false false
  = Ok (true, Some "x = 1", Some true)
  /\ exists c, Some "x = 1" = Some c /\ c <> "" /\ 0 < len c <= 20000.
Proof.
  split; [reflexivity|].
  apply (accepted_code_bounds env
           (cog_with (session_status 200 "x = 1") (fun _ => true))
           paste_message false false (Some "x = 1") (Some true)).
  reflexivity.
Defined.

(** A paste of exactly 20,000 characters is accepted. *)
Lemma eligibility_decision_at_max_len :
  check_paste_link env (cog_with (session_status 200 body_max) (fun _ => true))
    paste_message = Ok (Some body_max)
  /\ Some body_max
     = (if truthy (Some body_max) then Some body_max
        else get_code
               (cog_with (session_status 200 body_max) (fun _ => true))
               paste_message false false)
  /\ len body_max = 20000
  /\ parse_code env (cog_with (session_status 200 body_max) (fun _ => true))
       paste_message false false
     = Ok (true, Some body_max, Some true).
Proof.
  assert (forall body,
             check_paste_link env
               (cog_with (session_status 200 body) (fun _ => true))
               paste_message = Ok (Some body)) as Hfetch
    by (intros body; reflexivity).
  split; [apply Hfetch|].
  split; [reflexivity|].
  split; [exact len_body_max|].
  exact (proj2 (proj2 (eligibility_decision env
           (cog_with (session_status 200 body_max) (fun _ => true))
           paste_message false false (Some body_max) (Some body_max)
           (Hfetch body_max) eq_refl)) body_max eq_refl len_body_max).
Defined.

(** Example 1 of the specification. *)
Lemma unfenced_message_rejected_no_code_here :
  ~ Re.contains PASTE_REGEX "no code here"
  /\ SnekboxSpec.fenced_region "no code here" = None
  /\ (forall snekbox,
         get_snekbox (cog_with session_timeout (fun _ => true)) = Some snekbox ->
         forall text require_fenced,
           prepare_input snekbox text require_fenced
           = SnekboxSpec.prepare_input text require_fenced)
  /\ parse_code env (cog_with session_timeout (fun _ => true))
       "no code here" true false
     = Ok (false, None, None).
Proof.
  assert (~ Re.contains PASTE_REGEX "no code here") as Hno
    by (apply search_None; reflexivity).
  assert (forall snekbox,
             get_snekbox (cog_with session_timeout (fun _ => true))
             = Some snekbox ->
             forall text require_fenced,
               prepare_input snekbox text require_fenced
               = SnekboxSpec.prepare_input text require_fenced) as Hcog
    by (intros snekbox H; inversion H; reflexivity).
  split; [exact Hno|]. split; [reflexivity|]. split; [exact Hcog|].
  exact (unfenced_message_rejected env
           (cog_with session_timeout (fun _ => true)) "no code here" false
           Hno eq_refl Hcog).
Defined.

(** Without a paste link and with [require_fenced] false, the plain message
    is the candidate. *)
Lemma no_paste_link_falls_back_plain_message :
  ~ Re.contains PASTE_REGEX "print(1)"
  /\ check_paste_link env (cog_with session_timeout (fun _ => true))
       "print(1)" = Ok None
  /\ parse_code env (cog_with session_timeout (fun _ => true))
       "print(1)" false true
     = Ok (Spec.decide
             (get_code (cog_with session_timeout (fun _ => true))
                "print(1)" false true)
             false).
Proof.
  assert (~ Re.contains PASTE_REGEX "print(1)") as Hno
    by (apply search_None; reflexivity).
  split; [exact Hno|].
  exact (no_paste_link_falls_back env
           (cog_with session_timeout (fun _ => true)) "print(1)" false true
           Hno).
Defined.

(** Two cogs whose collaborators compute the same answers. *)
Lemma parse_code_deterministic_replica :
  Spec.stable env env
    (cog_with (session_status 200 "x = 1") (fun _ => true))
    (cog_replica (session_status 200 "x = 1"))
  /\ parse_code env (cog_with (session_status 200 "x = 1") (fun _ => true))
       paste_message false true
     = parse_code env (cog_replica (session_status 200 "x = 1"))
         paste_message false true.
Proof.
  assert (Spec.stable env env
            (cog_with (session_status 200 "x = 1") (fun _ => true))
            (cog_replica (session_status 200 "x = 1"))) as Hst.
  { repeat split; simpl; try reflexivity.
    intros content [|]; reflexivity. }
  split; [exact Hst|].
  exact (parse_code_deterministic env env
           (cog_with (session_status 200 "x = 1") (fun _ => true))
           (cog_replica (session_status 200 "x = 1"))
           paste_message false true Hst).
Defined.

(** A paste link answered 200 with an empty body. *)
Lemma empty_paste_body_falls_back_example :
  Re.search PASTE_REGEX paste_message = Some paste_message
  /\ paste_id env paste_message = Ok "abcd"
  /\ http_session_get
       (bot (cog_with (session_status 200 "") (fun _ => true)))
       (raw_paste_endpoint_format env "abcd")
     = Ok (response 200 "")
  /\ status (response 200 "") = 200
  /\ text (response 200 "") = Ok ""
  /\ check_paste_link env (cog_with (session_status 200 "") (fun _ => true))
       paste_message = Ok (Some "")
  /\ parse_code env (cog_with (session_status 200 "") (fun _ => true))
       paste_message false false
     = Ok (Spec.decide
             (get_code (cog_with (session_status 200 "") (fun _ => true))
                paste_message false false)
             false)
  /\ (forall success code is_paste,
         parse_code env (cog_with (session_status 200 "") (fun _ => true))
           paste_message false false
         = Ok (success, code, is_paste) ->
         is_paste <> Some true).
Proof.
  do 5 (split; [reflexivity|]).
  exact (empty_paste_body_falls_back env
           (cog_with (session_status 200 "") (fun _ => true))
           paste_message paste_message "abcd" (response 200 "") false false
           eq_refl eq_refl eq_refl eq_refl eq_refl).
Defined.


(** A bot without the code-block cog returns the code unchecked. *)
Lemma missing_codeblock_cog_skips_check_example :
  get_codeblock_cog (cog_no_codeblock session_timeout) = None
  /\ (forall content require_fenced,
         get_code (cog_no_codeblock session_timeout) content require_fenced true
         = get_code (cog_no_codeblock session_timeout) content require_fenced
             false)
  /\ (forall snekbox content require_fenced c code,
         get_snekbox (cog_no_codeblock session_timeout) = Some snekbox ->
         prepare_input snekbox content require_fenced = Some (String c code) ->
         get_code (cog_no_codeblock session_timeout) content require_fenced true
         = Some (String c code)).
Proof.
  split; [reflexivity|].
  exact (missing_codeblock_cog_skips_check
           (cog_no_codeblock session_timeout) eq_refl).
Defined.

End Instances.

(** ** The examples of the specification, and two more *)

Section SpecExamples.

Import CodeButtons Examples.

(** Example 2: a fenced block, [require_fenced] and [check_is_python] set,
    the classifier accepts. *)
Example fenced_block_accepted :
  parse_code env (cog_with session_timeout (fun _ => true))
    fenced_message true true
  = Ok (true, Some "print(1)", Some false).
Proof. vm_compute; reflexivity. Qed.

(** The same block when the classifier says it is not Python. *)
Example fenced_block_not_python :
  parse_code env (cog_with session_timeout (fun _ => false))
    fenced_message true true
  = Ok (false, None, None).
Proof. vm_compute; reflexivity. Qed.

(** Example 3: a paste link whose fetch answers 200 with [x = 1]. *)
Example live_paste_accepted :
  parse_code env (cog_with (session_status 200 "x = 1") (fun _ => true))
    paste_message false false
  = Ok (true, Some "x = 1", Some true).
Proof. vm_compute; reflexivity. Qed.

(** Example 5: 25,000 characters of plain text, [require_fenced] false. *)
Example long_message_rejected :
  parse_code env (cog_with session_timeout (fun _ => true))
    long_message false false
  = Ok (false, None, None).
Proof. vm_compute; reflexivity. Qed.

(** A paste link without an [id] parameter: the subscript of line 61 raises,
    and nothing between it and the caller catches the exception. *)
Example keyless_link_raises :
  Re.search PASTE_REGEX keyless_message = Some "paste.disnake.dev/abcd"
  /\ parse_code env (cog_with (session_status 200 "x = 1") (fun _ => true))
       keyless_message false false
     = Raise (KeyError "id").
Proof. split; vm_compute; reflexivity. Qed.

(** A paste one character over the limit is rejected although it was
    fetched. *)
Example oversized_paste_rejected :
  parse_code env (cog_with (session_status 200 body_over) (fun _ => true))
    paste_message false false
  = Ok (false, None, None).
Proof. vm_compute; reflexivity. Qed.

End SpecExamples.

(** * Further properties *)

(** ** Where a paste link ends *)

Section LinkExtent.

Import CodeButtons.






End LinkExtent.

(** ** The [id] of a paste link *)

Section PasteId.

Import CodeButtons.

Lemma getitem_dict_append key name value d :
  Urllib.getitem key (Urllib.dict_append name value d)
  = if String.eqb name key then
      Ok (match Urllib.getitem key d with
          | Ok vs => vs ++ [value]
          | Raise _ => [value]
          end)%list
    else Urllib.getitem key d.
Proof.
  induction d as [|[n vs] d IH]; simpl.
  - reflexivity.
  - destruct (String.eqb n name) eqn:En; simpl.
    + apply String.eqb_eq in En; subst n.
      destruct (String.eqb name key); reflexivity.
    + destruct (String.eqb n key) eqn:Ek.
      * apply String.eqb_eq in Ek; subst n.
        rewrite String.eqb_sym in En. now rewrite En.
      * exact IH.
Qed.

Lemma getitem_parse_fold key pairs : forall d,
  Urllib.getitem key
    (fold_left (fun d nv => Urllib.dict_append (fst nv) (snd nv) d) pairs d)
  = match Urllib.getitem key d,
          map snd (filter (fun nv => String.eqb (fst nv) key) pairs) with
    | Ok vs, more => Ok (vs ++ more)%list
    | Raise _, [] => Raise (KeyError key)
    | Raise _, more => Ok more
    end.
Proof.
  induction pairs as [|[n v] pairs IH]; intros d; simpl.
  - destruct (Urllib.getitem key d) as [vs|e] eqn:E.
    + now rewrite app_nil_r.
    + revert E; clear. induction d as [|[n vs] d IH]; simpl.
      * intros H; now inversion H.
      * destruct (String.eqb n key); [discriminate | exact IH].
  - rewrite IH, getitem_dict_append.
    destruct (String.eqb n key); simpl.
    + destruct (Urllib.getitem key d) as [vs|e]; simpl.
      * now rewrite <- app_assoc.
      * reflexivity.
    + reflexivity.
Qed.

(** X2: the [id] that [check_paste_link] asks the paste service for is the
    value of the first field of the query that is named [id] and has a value;
    later [id] fields are ignored. Without such a field the subscript
    [query_strings["id"]] raises [KeyError]; the subscript [[0]] never
    raises. *)
Theorem paste_id_is_first_id_field (env : Imports) (matched : string) :
  paste_id env matched
  = match find (fun nv => String.eqb (fst nv) "id")
            (Urllib.parse_qsl (unquote env) (Urllib.urlparse_query matched))
    with
    | Some nv => Ok (snd nv)
    | None => Raise (KeyError "id")
    end.
Proof.
  unfold paste_id, Urllib.parse_qs.
  rewrite getitem_parse_fold; simpl Urllib.getitem; cbv iota.
  induction (Urllib.parse_qsl (unquote env) (Urllib.urlparse_query matched))
    as [|[n v] pairs IH]; simpl; [reflexivity|].
  destruct (String.eqb n "id"); simpl; [reflexivity|].
  exact IH.
Qed.

Lemma split_once_prefix sep url before after :
  split_once sep url = Some (before, after) ->
  forall other, split_once other url = None -> split_once other before = None.
Proof.
  revert before after; induction url as [|c url IH]; simpl; intros before after H.
  - discriminate.
  - destruct (Ascii.eqb c sep).
    + inversion H; subst. reflexivity.
    + destruct (split_once sep url) as [[a b]|]; [|discriminate].
      inversion H; subst before after. intros other Ho; simpl.
      destruct (Ascii.eqb c other); [discriminate|].
      destruct (split_once other url) as [[x y]|] eqn:E; [discriminate|].
      now rewrite (IH a b eq_refl other E).
Qed.

Lemma query_without_question_mark url :
  split_once "?" url = None -> Urllib.urlparse_query url = "".
Proof.
  unfold Urllib.urlparse_query; intros H.
  destruct (split_once "#" url) as [[before after]|] eqn:E.
  - now rewrite (split_once_prefix _ _ _ _ E _ H).
  - now rewrite H.
Qed.

Lemma paste_id_without_query env matched :
  split_once "?" matched = None -> paste_id env matched = Raise (KeyError "id").
Proof.
  intros H. unfold paste_id. now rewrite (query_without_question_mark _ H).
Qed.

End PasteId.

(** ** The commands *)

(** Take the runs of the commands apart, one test of the source at a time. *)
Ltac run_cases :=
  repeat (simpl in *;
          match goal with
          | H : (_, _) = (_, _) |- _ => inversion H; subst; clear H
          | H : inl _ = inl _ |- _ => inversion H; subst; clear H
          | H : inr _ = inl _ |- _ => discriminate H
          | H : inl _ = inr _ |- _ => discriminate H
          | H : context [match ?x with _ => _ end] |- _ => destruct x eqn:?
          | |- context [match ?x with _ => _ end] => destruct x eqn:?
          end).

Section CommandFacts.

Import CodeButtons Commands.

Variable env : Imports.
Variable svc : Services.
Variable self : CodeButtons.t.




End CommandFacts.

Section CommandProperties.

Import CodeButtons Commands.

(** X3: a paste link without a query string stops everything: [parse_code]
    raises [KeyError] for [id] whatever the bot and the flags are, and the
    three message commands raise it before they reply or call a service. *)
Theorem link_without_query_raises
    (env : Imports) (svc : Services) (self : t) (content matched : string)
    (require_fenced check_is_python : bool) :
  Re.search PASTE_REGEX content = Some matched ->
  split_once "?" matched = None ->
  parse_code env self content require_fenced check_is_python
  = Raise (KeyError "id")
  /\ upload_to_workbin env svc self content
     = ([], inr (Exception (KeyError "id")))
  /\ message_command_black env svc self content
     = ([], inr (Exception (KeyError "id")))
  /\ run_in_snekbox env svc self content
     = ([], inr (Exception (KeyError "id"))).
Proof.
  intros Hm Hq.
  assert (forall rf py, parse_code env self content rf py = Raise (KeyError "id"))
    as Hp.
  { intros rf py. apply parse_code_raises.
    unfold check_paste_link. rewrite Hm.
    now rewrite (paste_id_without_query env matched Hq). }
  split; [apply Hp|].
  unfold upload_to_workbin, message_command_black, _format_black,
    run_in_snekbox.
  rewrite (Hp false false); simpl. auto.
Qed.



(** X6: the code that [parse_code] accepts is handed on as it was found:
    marked as a paste it is the body that [check_paste_link] fetched, and
    marked as inline it is what [prepare_input] of the loaded Snekbox cog
    returned for the message; nothing is trimmed or cut. *)
Theorem accepted_code_provenance
    (env : Imports) (self : t) (content : string)
    (require_fenced check_is_python : bool)
    (code : option string) (is_paste : option bool) :
  parse_code env self content require_fenced check_is_python
  = Ok (true, code, is_paste) ->
  (is_paste = Some true /\ check_paste_link env self content = Ok code)
  \/ (is_paste = Some false
      /\ exists snekbox,
           get_snekbox self = Some snekbox
           /\ prepare_input snekbox content require_fenced = code).
Proof.
  rewrite parse_code_decide.
  destruct (check_paste_link env self content) as [fetched|e]; simpl;
    [|discriminate].
  unfold Spec.decide.
  destruct (Spec.is_eligible _ _) eqn:He; [|discriminate].
  intros H; inversion H; subst code is_paste; clear H.
  destruct (truthy fetched) eqn:Ht; [now left|right].
  split; [reflexivity|].
  unfold get_code in *.
  destruct (get_snekbox self) as [snekbox|]; [|discriminate].
  exists snekbox; split; [reflexivity|].
  destruct (prepare_input snekbox content require_fenced) as [[|c s]|];
    try discriminate.
  destruct check_is_python; [|reflexivity].
  destruct (get_codeblock_cog self) as [cb|]; [|reflexivity].
  destruct (is_python_code cb (String c s)); [reflexivity | discriminate].
Qed.

End CommandProperties.

(** ** [strip] and the formatter's answer *)

Section StripFacts.

Import PyStr.

Lemma all_chars_app p a b :
  all_chars p (a ++ b) = all_chars p a && all_chars p b.
Proof.
  induction a as [|c a IH]; simpl; [reflexivity|].
  now rewrite IH, andb_assoc.
Qed.

Lemma lstrip_app_space l s :
  all_chars isspace l = true -> lstrip (l ++ s) = lstrip s.
Proof.
  induction l as [|c l IH]; simpl; [reflexivity|].
  intros H; apply andb_true_iff in H as [Hc Hl]. now rewrite Hc, IH.
Qed.

Lemma lstrip_space l : all_chars isspace l = true -> lstrip l = "".
Proof.
  intros H. rewrite <- (append_nil_r l). now rewrite lstrip_app_space.
Qed.

Lemma lstrip_empty s : lstrip s = "" -> all_chars isspace s = true.
Proof.
  induction s as [|c s IH]; simpl; [reflexivity|].
  destruct (isspace c); [exact IH | discriminate].
Qed.

Lemma lstrip_app_kept s r : lstrip s <> "" -> lstrip (s ++ r) = lstrip s ++ r.
Proof.
  induction s as [|c s IH]; simpl; [contradiction|].
  destruct (isspace c); [exact IH | reflexivity].
Qed.

Lemma rstrip_space r : all_chars isspace r = true -> rstrip r = "".
Proof.
  induction r as [|c r IH]; simpl; [reflexivity|].
  intros H; apply andb_true_iff in H as [Hc Hr]. now rewrite (IH Hr), Hc.
Qed.

Lemma rstrip_app_space s r :
  all_chars isspace r = true -> rstrip (s ++ r) = rstrip s.
Proof.
  intros Hr. induction s as [|c s IH]; simpl.
  - now apply rstrip_space.
  - now rewrite IH.
Qed.

(** White space around a text does not survive [strip]. *)
Lemma strip_padding l x r :
  all_chars isspace l = true -> all_chars isspace r = true ->
  strip (l ++ x ++ r) = strip x.
Proof.
  intros Hl Hr. unfold strip. rewrite (lstrip_app_space l _ Hl).
  destruct (lstrip x) as [|c kept] eqn:E.
  - apply lstrip_empty in E.
    rewrite (lstrip_app_space x r E), (lstrip_space r Hr). reflexivity.
  - rewrite lstrip_app_kept by (rewrite E; discriminate).
    rewrite E. now apply rstrip_app_space.
Qed.

End StripFacts.

Section FormatFacts.

Import CodeButtons Commands.

Variable env : Imports.
Variable svc : Services.
Variable self : CodeButtons.t.

(** [_format_black] replies to nobody: all it does to the outside is call
    the formatter and the Snekbox upload. *)
Lemma format_black_calls_only content :
  Forall (fun e => is_service_call e = true)
    (fst (_format_black env svc self content)).
Proof.
  unfold _format_black, call, then_, await, emit, ret, throw.
  run_cases; repeat constructor.
Qed.

(** The run of [_format_black] once the formatter has answered 200 with a
    body that holds both texts. *)
Lemma format_black_answered content code is_paste resp json formatted source :
  parse_code env self content false false = Ok (true, code, is_paste) ->
  http_session_post svc (black_endpoint self) code 110 = Ok resp ->
  post_status resp = 200 ->
  post_json resp = Ok json ->
  PyStr.getitem "formatted_code" json = Ok formatted ->
  PyStr.getitem "source_code" json = Ok source ->
  _format_black env svc self content
  = if String.eqb (PyStr.strip source) (PyStr.strip formatted) then
      ([Post (black_endpoint self) code 110],
       inl (true, "Formatted with black but no changes were made! " ++ ok_hand,
            None))
    else
      match get_snekbox self with
      | None =>
          ([Post (black_endpoint self) code 110],
           inr (AttributeError "upload_output"))
      | Some snekbox =>
          match upload_output svc snekbox (PyStr.strip formatted) "python" with
          | Raise e =>
              ([Post (black_endpoint self) code 110;
                UploadOutput (PyStr.strip formatted) "python"],
               inr (Exception e))
          | Ok paste =>
              ([Post (black_endpoint self) code 110;
                UploadOutput (PyStr.strip formatted) "python"],
               inl (if truthy paste then
                      (true,
                       if PyStr.startswith "Cannot parse:" (PyStr.strip formatted)
                       then "Attempted to format with black, but an error occured. Click to view."
                       else "Formatted with black. Click the button below to view on the pastebin.",
                       paste)
                    else (false, "Sorry, something went wrong!", None)))
          end
      end.
Proof.
  intros Hp Hpost Hs Hj Hf Hsrc.
  unfold _format_black, call, then_, await, emit, ret, throw.
  rewrite Hp; simpl. rewrite Hpost; simpl. rewrite Hs; simpl.
  rewrite Hj; simpl. rewrite Hf; simpl. rewrite Hsrc; simpl.
  destruct (String.eqb (PyStr.strip source) (PyStr.strip formatted));
    [reflexivity|].
  destruct (get_snekbox self) as [snekbox|]; [|reflexivity].
  destruct (upload_output svc snekbox (PyStr.strip formatted) "python")
    as [paste|e]; simpl; [|reflexivity].
  destruct (truthy paste); reflexivity.
Qed.

(** A link in the result means that a Snekbox cog is loaded. *)
Lemma format_black_link_needs_snekbox content trace success msg l :
  _format_black env svc self content = (trace, inl (success, msg, Some l)) ->
  exists snekbox, get_snekbox self = Some snekbox.
Proof.
  unfold _format_black, call, then_, await, emit, ret, throw.
  intros H. run_cases; eauto.
Qed.

(** A link in the result is not the empty text. *)
Lemma format_black_link_is_truthy content trace success msg l :
  _format_black env svc self content = (trace, inl (success, msg, Some l)) ->
  l <> "".
Proof.
  unfold _format_black, call, then_, await, emit, ret, throw.
  intros H. run_cases; discriminate.
Qed.

End FormatFacts.

Section FormatProperties.

Import CodeButtons Commands.

(** X7: [_format_black] returns a link only together with success, and the
    link is then the non-empty one that [upload_output] of the loaded Snekbox
    cog returned in this run; a failure never carries a link. *)
Theorem format_black_link_comes_from_upload
    (env : Imports) (svc : Services) (self : t) (content : string)
    (trace : list effect) (success : bool) (msg : string)
    (link : option string) :
  _format_black env svc self content = (trace, inl (success, msg, link)) ->
  (success = false -> link = None)
  /\ (forall l, link = Some l ->
        success = true /\ l <> ""
        /\ exists snekbox output,
             get_snekbox self = Some snekbox
             /\ upload_output svc snekbox output "python" = Ok (Some l)
             /\ In (UploadOutput output "python") trace).
Proof.
  unfold _format_black, call, then_, await, emit, ret, throw.
  intros H. run_cases; (split; [try reflexivity; try discriminate|]);
    intros l Hl; try discriminate Hl; subst link.
  split; [reflexivity|]. split.
  - intros ->. discriminate.
  - eexists; eexists. split; [reflexivity|].
    split; [eassumption|]. right; left; reflexivity.
Qed.

(** X8: on a bot without the Snekbox cog [_format_black] never returns a
    link and never uploads; as soon as the formatter answers with code that
    differs from its source, the lookup of [upload_output] on [None] raises
    [AttributeError], after the formatter was called. *)
Theorem format_black_without_snekbox
    (env : Imports) (svc : Services) (self : t) (content : string)
    (trace : list effect) (outcome : (bool * string * option string) + raised) :
  get_snekbox self = None ->
  _format_black env svc self content = (trace, outcome) ->
  (forall success msg link, outcome = inl (success, msg, link) -> link = None)
  /\ (forall output extension, ~ In (UploadOutput output extension) trace)
  /\ (forall code is_paste resp json formatted source,
         parse_code env self content false false = Ok (true, code, is_paste) ->
         http_session_post svc (black_endpoint self) code 110 = Ok resp ->
         post_status resp = 200 ->
         post_json resp = Ok json ->
         PyStr.getitem "formatted_code" json = Ok formatted ->
         PyStr.getitem "source_code" json = Ok source ->
         PyStr.strip source <> PyStr.strip formatted ->
         trace = [Post (black_endpoint self) code 110]
         /\ outcome = inr (AttributeError "upload_output")).
Proof.
  intros Hs H. split; [|split].
  - intros success msg link ->.
    destruct link as [l|]; [|reflexivity].
    destruct (format_black_link_needs_snekbox env svc self content
                trace success msg l H) as (snekbox & Hsome).
    rewrite Hs in Hsome; discriminate.
  - intros output extension Hin.
    revert H Hin. unfold _format_black, call, then_, await, emit, ret, throw.
    rewrite Hs. intros H Hin.
    run_cases; simpl in Hin; intuition discriminate.
  - intros code is_paste resp json formatted source Hp Hpost Hst Hj Hf Hsrc Hne.
    rewrite (format_black_answered env svc self content code is_paste resp
               json formatted source Hp Hpost Hst Hj Hf Hsrc) in H.
    apply String.eqb_neq in Hne. rewrite Hne, Hs in H.
    inversion H; auto.
Qed.

End FormatProperties.

Section ReplyProperties.

Import CodeButtons Commands.

(** X9: [_format_black] compares the two texts of the formatter's answer
    after [strip]: when they differ only in the white space around them, a
    final newline for one, it reports that nothing changed and uploads
    nothing, with or without a Snekbox cog. *)
Theorem padding_is_no_change
    (env : Imports) (svc : Services) (self : t) (content : string)
    (code : option string) (is_paste : option bool) (resp : PostResponse)
    (json : list (string * string)) (l1 r1 l2 r2 text : string) :
  parse_code env self content false false = Ok (true, code, is_paste) ->
  http_session_post svc (black_endpoint self) code 110 = Ok resp ->
  post_status resp = 200 ->
  post_json resp = Ok json ->
  PyStr.getitem "formatted_code" json = Ok (l1 ++ text ++ r1) ->
  PyStr.getitem "source_code" json = Ok (l2 ++ text ++ r2) ->
  all_chars isspace (l1 ++ r1 ++ l2 ++ r2) = true ->
  _format_black env svc self content
  = ([Post (black_endpoint self) code 110],
     inl (true, "Formatted with black but no changes were made! " ++ ok_hand,
          None)).
Proof.
  intros Hp Hpost Hs Hj Hf Hsrc Hall.
  rewrite !all_chars_app in Hall.
  apply andb_true_iff in Hall as [Hl1 Hall].
  apply andb_true_iff in Hall as [Hr1 Hall].
  apply andb_true_iff in Hall as [Hl2 Hr2].
  rewrite (format_black_answered env svc self content code is_paste resp json
             _ _ Hp Hpost Hs Hj Hf Hsrc).
  rewrite (strip_padding l1 text r1 Hl1 Hr1), (strip_padding l2 text r2 Hl2 Hr2).
  now rewrite String.eqb_refl.
Qed.

(** X10: [message_command_black] replies exactly once when it returns and
    not at all when it raises. The reply carries the text that
    [_format_black] returned and is ephemeral exactly when [_format_black]
    reported a failure; a failure reply has no button, and a button, when
    there is one, opens the non-empty link that [_format_black] returned.
    When the command raises, it raises what [_format_black] raised. *)
Theorem message_command_black_reply
    (env : Imports) (svc : Services) (self : t) (content : string)
    (trace : list effect) (outcome : unit + raised) :
  message_command_black env svc self content = (trace, outcome) ->
  match outcome with
  | inl _ =>
      exists calls success msg link components,
        _format_black env svc self content = (calls, inl (success, msg, link))
        /\ trace = (calls ++ [InterSend msg (negb success) components])%list
        /\ replies trace = [InterSend msg (negb success) components]
        /\ (success = false -> components = None)
        /\ (link = None -> components = None)
        /\ (forall l, link = Some l -> success = true ->
              l <> ""
              /\ components = Some (Button "Click to open in workbin" (Some l)))
  | inr e =>
      _format_black env svc self content = (trace, inr e)
      /\ replies trace = []
  end.
Proof.
  pose proof (format_black_calls_only env svc self content) as Hcalls.
  assert (forall calls : list effect,
             Forall (fun e => is_service_call e = true) calls ->
             replies calls = []) as Hnone.
  { induction 1 as [|e calls He _ IH]; [reflexivity|].
    unfold replies in *; simpl. rewrite IH. now destruct e. }
  unfold message_command_black, then_, emit.
  destruct (_format_black env svc self content)
    as [calls [[[success msg] link]|e]] eqn:Hf; simpl in Hcalls.
  - intros H.
    assert (outcome = inl tt /\
            trace = (calls ++ [InterSend msg (negb success)
                                 (if success then link_button link else None)])%list)
      as [-> ->].
    { destruct success; simpl in H; inversion H; auto. }
    exists calls, success, msg, link,
      (if success then link_button link else None).
    split; [reflexivity|]. split; [reflexivity|]. split.
    { unfold replies. rewrite filter_app. fold (replies calls).
      now rewrite (Hnone calls Hcalls). }
    split; [now intros ->|]. split.
    { intros ->. now destruct success. }
    intros l -> ->. unfold link_button.
    pose proof (format_black_link_is_truthy env svc self content calls true
                  msg l Hf) as Hl.
    destruct l as [|c l]; [contradiction|]. split; [discriminate | reflexivity].
  - intros H; inversion H; subst. split; [reflexivity|].
    now apply Hnone.
Qed.

(** X11: the prefix command formats a message as the message command does:
    for the message it was given, or the message it replies to, it calls the
    same services with the same arguments, sends the same text and the same
    button, and ends the same way; only [ephemeral] is gone, which [ctx.send]
    does not have. *)
Theorem prefix_black_as_message_command
    (env : Imports) (svc : Services) (self : t) (content : string)
    (reference : option (option string)) :
  prefix_black env svc self (Some content) reference
  = (map as_ctx (fst (message_command_black env svc self content)),
     snd (message_command_black env svc self content))
  /\ prefix_black env svc self None (Some (Some content))
     = (map as_ctx (fst (message_command_black env svc self content)),
        snd (message_command_black env svc self content)).
Proof.
  assert (forall trace : list effect,
             Forall (fun e => is_service_call e = true) trace ->
             map as_ctx trace = trace) as Hid.
  { induction 1 as [|e trace He _ IH]; simpl; [reflexivity|].
    rewrite IH. now destruct e. }
  pose proof (format_black_calls_only env svc self content) as Hcalls.
  unfold prefix_black, message_command_black, then_, ret, emit, link_button.
  destruct (_format_black env svc self content) as [trace [[[success msg] url]|e]];
    simpl in *.
  - destruct success; simpl; rewrite map_app, (Hid trace Hcalls); auto.
  - rewrite (Hid trace Hcalls); auto.
Qed.


End ReplyProperties.

Section ServiceArguments.

Import CodeButtons Commands.



End ServiceArguments.

(** ** The [invite] command *)

(** Follow [invite] through its tests in the order of the source: the three
    options, the lookup, the [bot] flag and [raw_link]. *)
Ltac invite_cases d client_id permissions guild raw_link H :=
  unfold DevTools.invite, DevTools.then_, DevTools.try_fetch_user,
    DevTools.response_send_message, DevTools.inter_send, DevTools.ret in H;
  destruct client_id as [[|? ?]|]; destruct permissions as [[|? ?]|];
  destruct guild as [?|];
  cbn beta iota zeta delta [option_map negb app] in H;
  repeat (match type of H with
          | context [DevTools.int d ?s] => destruct (DevTools.int d s) eqn:?
          end; cbn beta iota zeta delta [option_map negb app] in H);
  try (match type of H with
       | context [DevTools.fetch_user d ?z] =>
           let u := fresh "user" in
           destruct (DevTools.fetch_user d z) as [u| |] eqn:?;
           cbn beta iota zeta delta [option_map negb app] in H;
           try (destruct (DevTools.bot u) eqn:?;
                cbn beta iota zeta delta [option_map negb app] in H;
                try (destruct raw_link;
                     cbn beta iota zeta delta [option_map negb app] in H))
       end);
  apply pair_equal_spec in H; destruct H as [<- <-].

Section InviteProperties.

Import DevTools.

Lemma ResponseSendMessage_inj content components ephemeral content' components'
    ephemeral' :
  ResponseSendMessage content components ephemeral
  = ResponseSendMessage content' components' ephemeral' ->
  content = content' /\ components = components' /\ ephemeral = ephemeral'.
Proof. intros H; injection H; auto. Qed.

Lemma FetchUser_inj id id' : FetchUser id = FetchUser id' -> id = id'.
Proof. intros H; injection H; auto. Qed.

(** X13: an empty text for the client id or for the permissions counts as
    not given, so the invite is for the bot itself or with the default
    permissions; an empty text for the guild counts as given and is refused
    as not an integer. *)
Theorem empty_option_texts
    (d : Discord) (client_id permissions guild : option string)
    (include_applications_commands raw_link ephemeral : bool) :
  int d "" = None ->
  invite d (Some "") permissions guild include_applications_commands raw_link
    ephemeral
  = invite d None permissions guild include_applications_commands raw_link
      ephemeral
  /\ invite d client_id (Some "") guild include_applications_commands raw_link
       ephemeral
     = invite d client_id None guild include_applications_commands raw_link
         ephemeral
  /\ invite d None None (Some "") include_applications_commands raw_link
       ephemeral false
     = ([ResponseSendMessage "Guild ID must be an integer." None true],
        inl (tt, true)).
Proof.
  intros Hint. split; [reflexivity|]. split; [reflexivity|].
  unfold invite. rewrite Hint. reflexivity.
Qed.

(** X14: [invite] builds no invite without having looked the user up: a run
    on a fresh interaction that made no [fetch_user] call is exactly one
    ephemeral reply without components, and the reply names the first
    option, in the order client id, permissions, guild, whose text is not an
    integer: the options before it passed. *)
Theorem invite_without_lookup
    (d : Discord) (client_id permissions guild : option string)
    (include_applications_commands raw_link ephemeral : bool)
    (trace : list effect) (outcome : unit * bool + raised) :
  invite d client_id permissions guild include_applications_commands raw_link
    ephemeral false = (trace, outcome) ->
  (forall id, ~ In (FetchUser id) trace) ->
  outcome = inl (tt, true)
  /\ exists msg,
       trace = [ResponseSendMessage msg None true]
       /\ ((msg = "client id must be an integer."
            /\ exists given,
                 client_id = Some given /\ given <> ""
                 /\ int d given = None)
           \/ (msg = "Permissions must be an integer."
               /\ resolved_client d client_id <> None
               /\ exists given,
                    permissions = Some given /\ given <> ""
                    /\ int d given = None)
           \/ (msg = "Guild ID must be an integer."
               /\ resolved_client d client_id <> None
               /\ resolved_permissions d permissions <> None
               /\ exists given, guild = Some given /\ int d given = None)).
Proof.
  intros H Hno.
  invite_cases d client_id permissions guild raw_link H;
    try (exfalso; eapply Hno; left; reflexivity);
    (split; [reflexivity|]); eexists; (split; [reflexivity|]);
    unfold resolved_client, resolved_permissions;
    repeat match goal with
           | H : int d _ = _ |- _ => rewrite H
           end;
    first
      [ left; split; [reflexivity|];
        eexists; split; [reflexivity|]; split; [discriminate | assumption]
      | right; left; split; [reflexivity|]; split; [discriminate|];
        eexists; split; [reflexivity|]; split; [discriminate | assumption]
      | right; right; split; [reflexivity|]; split; [discriminate|];
        split; [simpl; discriminate|];
        eexists; split; [reflexivity | assumption] ].
Qed.

(** X15: a user that is not a bot gets no invite. When the three options
    pass and [fetch_user] finds a user whose [bot] flag is false, [invite]
    tells that the user is not a bot and does not return there: it goes on
    to [inter.response.send_message] on the interaction it has just
    answered, and ends in [InteractionResponded] with nothing more sent,
    whatever [raw_link], [ephemeral] and the scopes are. *)
Theorem invite_for_a_user_that_is_no_bot
    (d : Discord) (client_id permissions guild : option string)
    (include_applications_commands raw_link ephemeral : bool)
    (id : Z) (perms : Permissions) (guild_id : option Z) (user : User) :
  resolved_client d client_id = Some id ->
  resolved_permissions d permissions = Some perms ->
  resolved_guild d guild = Some guild_id ->
  fetch_user d id = Found user ->
  bot user = false ->
  invite d client_id permissions guild include_applications_commands raw_link
    ephemeral false
  = ([FetchUser id; InterSend not_a_bot_reply true],
     inr InteractionResponded).
Proof.
  unfold resolved_client, resolved_permissions, resolved_guild.
  intros Hc Hp Hg Hf Hb.
  unfold invite. rewrite Hc, Hp, Hg.
  unfold then_, try_fetch_user. rewrite Hf.
  cbn beta iota zeta. rewrite Hb.
  unfold inter_send, response_send_message.
  now destruct raw_link.
Qed.

(** X16: whatever [invite] sends through [inter.response] after it looked a
    user up went to a bot: the run found the user, the user is a bot, and the
    reply carries the URL that [oauth_url] built: as the last line of the
    message, without components, when [raw_link] is set, and as the link of
    the one button otherwise. *)
Theorem invite_goes_to_bots_only
    (d : Discord) (client_id permissions guild : option string)
    (include_applications_commands raw_link ephemeral : bool)
    (trace : list effect) (outcome : unit * bool + raised)
    (id : Z) (msg : string) (components : option Commands.button)
    (eph : bool) :
  invite d client_id permissions guild include_applications_commands raw_link
    ephemeral false = (trace, outcome) ->
  In (FetchUser id) trace ->
  In (ResponseSendMessage msg components eph) trace ->
  exists user perms guild_id,
    fetch_user d id = Found user /\ bot user = true
    /\ eph = ephemeral
    /\ (if raw_link then
          components = None
          /\ exists head,
               msg = head ++ Commands.newline
                       ++ oauth_url d id perms guild_id
                            (scopes include_applications_commands)
        else
          components
          = Some (Commands.Button ("Click to invite " ++ name user ++ "!")
                    (Some (oauth_url d id perms guild_id
                             (scopes include_applications_commands))))).
Proof.
  intros H Hid Hin.
  invite_cases d client_id permissions guild raw_link H;
    repeat match goal with
           | H : In _ (_ :: _) |- _ => destruct H as [H|H]
           | H : In _ [] |- _ => destruct H
           | H : FetchUser _ = FetchUser _ |- _ =>
               apply FetchUser_inj in H; destruct H
           | H : ResponseSendMessage _ _ _ = ResponseSendMessage _ _ _ |- _ =>
               apply ResponseSendMessage_inj in H; destruct H as (<- & <- & <-)
           | H : _ = FetchUser _ |- _ => discriminate H
           | H : _ = ResponseSendMessage _ _ _ |- _ => discriminate H
           end;
    eexists; eexists; eexists;
    (split; [eassumption|]); (split; [assumption|]); (split; [reflexivity|]);
    try (split; [reflexivity|]; eexists); reflexivity.
Qed.

End InviteProperties.

(** ** The further properties at concrete messages *)

Section MoreInstances.

Import CodeButtons Commands Examples MoreExamples.


Lemma link_without_query_raises_example :
  Re.search PASTE_REGEX keyless_message = Some "paste.disnake.dev/abcd"
  /\ split_once "?" "paste.disnake.dev/abcd" = None
  /\ parse_code env (cog_with (session_status 200 "x = 1") (fun _ => true))
       keyless_message true true
     = Raise (KeyError "id")
  /\ upload_to_workbin env (services "x = 1")
       (cog_with (session_status 200 "x = 1") (fun _ => true)) keyless_message
     = ([], inr (Exception (KeyError "id")))
  /\ message_command_black env (services "x = 1")
       (cog_with (session_status 200 "x = 1") (fun _ => true)) keyless_message
     = ([], inr (Exception (KeyError "id")))
  /\ run_in_snekbox env (services "x = 1")
       (cog_with (session_status 200 "x = 1") (fun _ => true)) keyless_message
     = ([], inr (Exception (KeyError "id"))).
Proof.
  split; [reflexivity|]. split; [reflexivity|].
  apply (link_without_query_raises env (services "x = 1")
           (cog_with (session_status 200 "x = 1") (fun _ => true))
           keyless_message "paste.disnake.dev/abcd" true true);
    reflexivity.
Defined.


Lemma accepted_code_provenance_example :
  parse_code env (cog_with (session_status 404 "Not Found") (fun _ => true))
    fenced_message true true
  = Ok (true, Some "print(1)", Some false)
  /\ ((Some false = Some true
       /\ check_paste_link env
            (cog_with (session_status 404 "Not Found") (fun _ => true))
            fenced_message = Ok (Some "print(1)"))
      \/ (Some false = Some false
          /\ exists snekbox,
               get_snekbox
                 (cog_with (session_status 404 "Not Found") (fun _ => true))
               = Some snekbox
               /\ prepare_input snekbox fenced_message true
                  = Some "print(1)")).
Proof.
  split; [reflexivity|].
  apply (accepted_code_provenance env
           (cog_with (session_status 404 "Not Found") (fun _ => true))
           fenced_message true true (Some "print(1)") (Some false)).
  reflexivity.
Defined.

Lemma format_black_link_comes_from_upload_example :
  _format_black env (services "x = 1")
    (cog_with (session_status 200 "x=1") (fun _ => true)) paste_message
  = ([Post "https://black.example/api" (Some "x=1") 110;
      UploadOutput "x = 1" "python"],
     inl (true,
          "Formatted with black. Click the button below to view on the pastebin.",
          Some "https://paste.disnake.dev/?id=out"))
  /\ (true = false -> Some "https://paste.disnake.dev/?id=out" = None)
  /\ (forall l, Some "https://paste.disnake.dev/?id=out" = Some l ->
        true = true /\ l <> ""
        /\ exists snekbox output,
             get_snekbox (cog_with (session_status 200 "x=1") (fun _ => true))
             = Some snekbox
             /\ upload_output (services "x = 1") snekbox output "python"
                = Ok (Some l)
             /\ In (UploadOutput output "python")
                  [Post "https://black.example/api" (Some "x=1") 110;
                   UploadOutput "x = 1" "python"]).
Proof.
  split; [reflexivity|].
  apply (format_black_link_comes_from_upload env (services "x = 1")
           (cog_with (session_status 200 "x=1") (fun _ => true)) paste_message
           [Post "https://black.example/api" (Some "x=1") 110;
            UploadOutput "x = 1" "python"]
           true
           "Formatted with black. Click the button below to view on the pastebin."
           (Some "https://paste.disnake.dev/?id=out")).
  reflexivity.
Defined.

Lemma format_black_without_snekbox_example :
  get_snekbox (cog_bare (session_status 200 "x=1")) = None
  /\ _format_black env (services "x = 1") (cog_bare (session_status 200 "x=1"))
       paste_message
     = ([Post "https://black.example/api" (Some "x=1") 110],
        inr (AttributeError "upload_output"))
  /\ (forall (success : bool) (msg : string) (link : option string),
         @inr (bool * string * option string) raised
           (AttributeError "upload_output")
         = inl (success, msg, link) ->
         link = None)
  /\ (forall output extension,
         ~ In (UploadOutput output extension)
             [Post "https://black.example/api" (Some "x=1") 110]).
Proof.
  split; [reflexivity|]. split; [reflexivity|].
  pose proof (format_black_without_snekbox env (services "x = 1")
                (cog_bare (session_status 200 "x=1")) paste_message
                [Post "https://black.example/api" (Some "x=1") 110]
                (inr (AttributeError "upload_output")) eq_refl eq_refl)
    as (Hlink & Hupload & _).
  split; [exact Hlink | exact Hupload].
Defined.

Lemma padding_is_no_change_final_newline :
  parse_code env (cog_with (session_status 200 "x = 1") (fun _ => true))
    paste_message false false
  = Ok (true, Some "x = 1", Some true)
  /\ http_session_post (services with_final_newline)
       "https://black.example/api" (Some "x = 1") 110
     = Ok (black_answer (Some "x = 1") with_final_newline)
  /\ post_status (black_answer (Some "x = 1") with_final_newline) = 200
  /\ PyStr.getitem "formatted_code"
       [("source_code", "x = 1"); ("formatted_code", with_final_newline)]
     = Ok ("" ++ "x = 1" ++ newline)
  /\ PyStr.getitem "source_code"
       [("source_code", "x = 1"); ("formatted_code", with_final_newline)]
     = Ok ("" ++ "x = 1" ++ "")
  /\ all_chars isspace ("" ++ newline ++ "" ++ "") = true
  /\ _format_black env (services with_final_newline)
       (cog_with (session_status 200 "x = 1") (fun _ => true)) paste_message
     = ([Post "https://black.example/api" (Some "x = 1") 110],
        inl (true, "Formatted with black but no changes were made! " ++ ok_hand,
             None)).
Proof.
  do 6 (split; [reflexivity|]).
  exact (padding_is_no_change env (services with_final_newline)
           (cog_with (session_status 200 "x = 1") (fun _ => true))
           paste_message (Some "x = 1") (Some true)
           (black_answer (Some "x = 1") with_final_newline)
           [("source_code", "x = 1"); ("formatted_code", with_final_newline)]
           "" newline "" "" "x = 1"
           eq_refl eq_refl eq_refl eq_refl eq_refl eq_refl eq_refl).
Defined.

Lemma message_command_black_reply_example :
  message_command_black env (services "x = 1")
    (cog_with (session_status 200 "x=1") (fun _ => true)) paste_message
  = ([Post "https://black.example/api" (Some "x=1") 110;
      UploadOutput "x = 1" "python";
      InterSend
        "Formatted with black. Click the button below to view on the pastebin."
        false
        (Some (Button "Click to open in workbin"
                 (Some "https://paste.disnake.dev/?id=out")))],
     inl tt)
  /\ message_command_black env (services "x = 1")
       (cog_with session_timeout (fun _ => true)) "   "
     = ([InterSend no_code_reply true None], inl tt)
  /\ (exists calls success msg link components,
        _format_black env (services "x = 1")
          (cog_with session_timeout (fun _ => true)) "   "
        = (calls, inl (success, msg, link))
        /\ [InterSend no_code_reply true None]
           = (calls ++ [InterSend msg (negb success) components])%list
        /\ replies [InterSend no_code_reply true None]
           = [InterSend msg (negb success) components]
        /\ (success = false -> components = None)
        /\ (link = None -> components = None)
        /\ (forall l, link = Some l -> success = true ->
              l <> ""
              /\ components
                 = Some (Button "Click to open in workbin" (Some l))))
  /\ (exists calls success msg link components,
        _format_black env (services "x = 1")
          (cog_with (session_status 200 "x=1") (fun _ => true)) paste_message
        = (calls, inl (success, msg, link))
        /\ [Post "https://black.example/api" (Some "x=1") 110;
            UploadOutput "x = 1" "python";
            InterSend
              "Formatted with black. Click the button below to view on the pastebin."
              false
              (Some (Button "Click to open in workbin"
                       (Some "https://paste.disnake.dev/?id=out")))]
           = (calls ++ [InterSend msg (negb success) components])%list
        /\ replies
             [Post "https://black.example/api" (Some "x=1") 110;
              UploadOutput "x = 1" "python";
              InterSend
                "Formatted with black. Click the button below to view on the pastebin."
                false
                (Some (Button "Click to open in workbin"
                         (Some "https://paste.disnake.dev/?id=out")))]
           = [InterSend msg (negb success) components]
        /\ (success = false -> components = None)
        /\ (link = None -> components = None)
        /\ (forall l, link = Some l -> success = true ->
              l <> ""
              /\ components
                 = Some (Button "Click to open in workbin" (Some l)))).
Proof.
  split; [reflexivity|]. split; [reflexivity|]. split.
  - exact (message_command_black_reply env (services "x = 1")
             (cog_with session_timeout (fun _ => true)) "   "
             [InterSend no_code_reply true None] (inl tt) eq_refl).
  - exact (message_command_black_reply env (services "x = 1")
             (cog_with (session_status 200 "x=1") (fun _ => true))
             paste_message _ (inl tt) eq_refl).
Defined.


End MoreInstances.

Section InviteInstances.

Import DevTools MoreExamples.

Lemma empty_option_texts_example :
  int discord "" = None
  /\ invite discord (Some "") (Some "7") None true false false
     = invite discord None (Some "7") None true false false
  /\ invite discord (Some "42") (Some "") None true false false
     = invite discord (Some "42") None None true false false
  /\ invite discord None None (Some "") true false false false
     = ([ResponseSendMessage "Guild ID must be an integer." None true],
        inl (tt, true)).
Proof.
  split; [reflexivity|].
  exact (empty_option_texts discord (Some "42") (Some "7") None true false
           false eq_refl).
Defined.

Lemma invite_without_lookup_example :
  invite discord (Some "42") (Some "x") (Some "y") true false false false
  = ([ResponseSendMessage "Permissions must be an integer." None true],
     inl (tt, true))
  /\ (forall id,
         ~ In (FetchUser id)
             [ResponseSendMessage "Permissions must be an integer." None true])
  /\ inl (tt, true) = inl (tt, true) :> unit * bool + raised
  /\ exists msg,
       [ResponseSendMessage "Permissions must be an integer." None true]
       = [ResponseSendMessage msg None true]
       /\ ((msg = "client id must be an integer."
            /\ exists given,
                 Some "42" = Some given /\ given <> ""
                 /\ int discord given = None)
           \/ (msg = "Permissions must be an integer."
               /\ resolved_client discord (Some "42") <> None
               /\ exists given,
                    Some "x" = Some given /\ given <> ""
                    /\ int discord given = None)
           \/ (msg = "Guild ID must be an integer."
               /\ resolved_client discord (Some "42") <> None
               /\ resolved_permissions discord (Some "x") <> None
               /\ exists given,
                    Some "y" = Some given /\ int discord given = None)).
Proof.
  assert (forall id,
             ~ In (FetchUser id)
                 [ResponseSendMessage "Permissions must be an integer." None
                    true])
    as Hno by (intros id [H|[]]; discriminate H).
  split; [reflexivity|]. split; [exact Hno|].
  exact (invite_without_lookup discord (Some "42") (Some "x") (Some "y") true
           false false _ _ eq_refl Hno).
Defined.

Lemma invite_for_a_user_that_is_no_bot_example :
  resolved_client discord (Some "42") = Some 42
  /\ resolved_permissions discord None = Some Permissions_read_messages
  /\ resolved_guild discord (Some "7") = Some (Some 7)
  /\ fetch_user discord 42 = Found human
  /\ bot human = false
  /\ invite discord (Some "42") None (Some "7") true true false false
     = ([FetchUser 42; InterSend not_a_bot_reply true],
        inr InteractionResponded).
Proof.
  do 5 (split; [reflexivity|]).
  exact (invite_for_a_user_that_is_no_bot discord (Some "42") None (Some "7")
           true true false 42 Permissions_read_messages (Some 7) human
           eq_refl eq_refl eq_refl eq_refl eq_refl).
Defined.

Lemma invite_goes_to_bots_only_example :
  invite discord None None (Some "42") false true false false
  = ([FetchUser 7;
      ResponseSendMessage
        (message discord true 7 monty (Some 42) ++ Commands.newline
         ++ "https://discord.com/oauth2/authorize")
        None false],
     inl (tt, true))
  /\ exists user perms guild_id,
       fetch_user discord 7 = Found user /\ bot user = true
       /\ false = false
       /\ None = None :> option Commands.button
       /\ exists head,
            message discord true 7 monty (Some 42) ++ Commands.newline
              ++ "https://discord.com/oauth2/authorize"
            = head ++ Commands.newline
                ++ oauth_url discord 7 perms guild_id (scopes false).
Proof.
  split; [reflexivity|].
  apply (invite_goes_to_bots_only discord None None (Some "42") false true
           false _ (inl (tt, true)) 7 _ None false eq_refl).
  - left; reflexivity.
  - right; left; reflexivity.
Defined.

End InviteInstances.
